(** * NANDA Node SDK: message improvers, conversation store and start-up

    A shallow embedding of
      - [src/core/message-improver.ts]  (class [MessageImprover]),
      - [src/core/nanda.ts]             ([storeMessage], [processMessage],
        [getConversation], [deleteConversation], [start]),
      - [src/core/registry-client.ts]   ([register], [unregister],
        [updateRegistration], [heartbeat]),
      - [src/core/agent-bridge.ts] ([start], [stop], [sendMessage]) and
        [src/core/api-server.ts] ([start]); in the source tree the text of
        both follows [examples/custom-improvement.ts],
    followed by the properties of the specification that concern them.

    Conventions of the embedding.
      - A text is a [string]: each [ascii] stands for one UTF-16 code unit
        below 256.  [trim], [charAt], [slice], [includes] and the regular
        expressions of the source are written out on that alphabet;
        [toUpperCase] and [toLowerCase] belong to the JavaScript runtime and
        are parameters of the development.
      - [async] functions are run to completion: a call either returns a
        value or throws ([Completion]).  Logger calls change nothing that
        the model tracks and are left out; a template literal in their
        argument is kept where its evaluation can throw.
      - An improver is a function of its arguments and of what the call
        draws from the environment ([Entropy]); it does not call back into
        the agent or the registry.
      - [improvers] is a plain object literal used as a map.  Its own
        properties are a [gmap]; a read [this.improvers[name]] that finds no
        own property continues in [Object.prototype], as it does in
        JavaScript ([getProperty]).
      - [new Date()] reads a clock that is part of the state; every
        evaluation is one reading.
      - [messageCount] is a natural number (a JavaScript number is exact on
        the counts below 2^53). *)

From Stdlib Require Import String Ascii ZArith NArith Bool Lia.
From stdpp Require Import base gmap strings list.

(** ** JavaScript strings *)

Module Js.

(** [WhiteSpace] and [LineTerminator] code units below 256: TAB, LF, VT,
    FF, CR, SPACE and NBSP.  These are what [String.prototype.trim]
    strips. *)
Definition isWhiteSpace (c : ascii) : bool :=
  let n := nat_of_ascii c in
  ((9 <=? n) && (n <=? 13)) || (n =? 32) || (n =? 160).

Fixpoint trimStart (s : string) : string :=
  match s with
  | EmptyString => EmptyString
  | String c r => if isWhiteSpace c then trimStart r else s
  end.

Fixpoint trimEnd (s : string) : string :=
  match s with
  | EmptyString => EmptyString
  | String c r =>
      match trimEnd r with
      | EmptyString => if isWhiteSpace c then EmptyString else String c EmptyString
      | r' => String c r'
      end
  end.

Definition trim (s : string) : string := trimEnd (trimStart s).

(** [s.charAt(i)]: the code unit at [i] as a string, or the empty string. *)
Definition charAt (i : nat) (s : string) : string := String.substring i 1 s.

(** [s.slice(i)] for [0 <= i]. *)
Definition slice (i : nat) (s : string) : string :=
  String.substring i (String.length s - i) s.

Fixpoint lastChar (s : string) : option ascii :=
  match s with
  | EmptyString => None
  | String c EmptyString => Some c
  | String _ r => lastChar r
  end.

(** [s.includes(needle)] *)
Fixpoint includes (s needle : string) : bool :=
  String.prefix needle s ||
  match s with
  | EmptyString => false
  | String _ r => includes r needle
  end.

(** The character class [[.!?]]. *)
Definition isTerminalPunctuation (c : ascii) : bool :=
  Ascii.eqb c "." || Ascii.eqb c "!" || Ascii.eqb c "?".

(** [/[.!?]$/.test(s)]: without the [m] flag [$] is the end of input. *)
Definition endsWithPunctuation (s : string) : bool :=
  match lastChar s with
  | Some c => isTerminalPunctuation c
  | None => false
  end.

(** [s.replace(/\.$/, '!')] *)
Fixpoint replaceFinalPeriod (s : string) : string :=
  match s with
  | EmptyString => EmptyString
  | String c EmptyString => if Ascii.eqb c "." then String "!" EmptyString else s
  | String c r => String c (replaceFinalPeriod r)
  end.

(** [\w] of a regular expression without the [u] flag: [[A-Za-z0-9_]]. *)
Definition isWordChar (c : ascii) : bool :=
  let n := nat_of_ascii c in
  ((48 <=? n) && (n <=? 57)) || ((65 <=? n) && (n <=? 90))
  || (n =? 95) || ((97 <=? n) && (n <=? 122)).

(** Case folding of the [i] flag without [u].  [Canonicalize] never maps a
    code unit at or above 128 to one below, so against a pattern made of
    ASCII letters it is ASCII case folding. *)
Definition foldCase (c : ascii) : ascii :=
  let n := nat_of_ascii c in
  if (97 <=? n) && (n <=? 122) then ascii_of_nat (n - 32) else c.

(** Match the literal [pattern] at the head of [s], ignoring case; the
    result is the last code unit matched and the rest of the input. *)
Fixpoint matchLiteral (pattern s : string) (last : option ascii)
  : option (option ascii * string) :=
  match pattern with
  | EmptyString => Some (last, s)
  | String p pattern' =>
      match s with
      | EmptyString => None
      | String c r =>
          if Ascii.eqb (foldCase p) (foldCase c)
          then matchLiteral pattern' r (Some c)
          else None
      end
  end.

Definition isWord (c : option ascii) : bool :=
  match c with Some c => isWordChar c | None => false end.

(** [\b] between the code units [before] and [after]. *)
Definition wordBoundary (before after : option ascii) : bool :=
  xorb (isWord before) (isWord after).

Definition head (s : string) : option ascii :=
  match s with EmptyString => None | String c _ => Some c end.

(** Does [/\bword\b/i] match at the head of [s], [before] being the code
    unit in front of it? *)
Definition matchWordAt (word : string) (before : option ascii) (s : string) : bool :=
  wordBoundary before (head s) &&
  match matchLiteral word s before with
  | Some (last, rest) => wordBoundary last (head rest)
  | None => false
  end.

(** [s.replace(new RegExp('\\b' + word + '\\b', 'gi'), replacement)] for a
    non-empty [word] of ASCII letters and a [replacement] without [$].
    [skip] counts the code units of a match still to be passed over. *)
Fixpoint replaceWordFrom (word replacement : string)
    (before : option ascii) (skip : nat) (s : string) : string :=
  match s with
  | EmptyString => EmptyString
  | String c r =>
      match skip with
      | S k => replaceWordFrom word replacement (Some c) k r
      | O =>
          if matchWordAt word before s
          then replacement +:+
               replaceWordFrom word replacement (Some c) (String.length word - 1) r
          else String c (replaceWordFrom word replacement (Some c) 0 r)
      end
  end.

Definition replaceWord (word replacement s : string) : string :=
  replaceWordFrom word replacement None 0 s.

Fixpoint mapChars (f : ascii -> ascii) (s : string) : string :=
  match s with
  | EmptyString => EmptyString
  | String c r => String (f c) (mapChars f r)
  end.

(** [toUpperCase] and [toLowerCase] on the ASCII letters, for closed
    examples. *)
Definition asciiToUpperCase (s : string) : string := mapChars foldCase s.

Definition asciiToLowerCase (s : string) : string :=
  mapChars (fun c =>
    let n := nat_of_ascii c in
    if (65 <=? n) && (n <=? 90) then ascii_of_nat (n + 32) else c) s.

End Js.

(** ** Completions and the effects of the orchestrator *)

(** The body of an HTTP response, as far as the source uses it: the
    string that the template literal [`${data}`] makes of it, or [None]
    when the body is an object without a primitive value (the literal then
    throws a [TypeError]). *)
Record ResponseData := {
  coerce : option string
}.

(** A response as axios hands it over. *)
Record AxiosResponse := {
  status : Z;
  data : ResponseData
}.

(** What a [catch] clause receives: an instance of [Error] with its
    [message] (a [TypeError], say), an [AxiosError] (an [Error] too, with
    [code] and [response]), or any other thrown value.  Of a value that is
    not an [Error] the source only uses the template literal [`${error}`];
    [convertible] tells whether that conversion to a string succeeds (it
    does not for a [Symbol] or an object without a primitive value). *)
Inductive Thrown :=
| ErrorInstance (message : string)
| AxiosError (code : option string) (response : option AxiosResponse) (message : string)
| NonError (convertible : bool).

(** The outcome of running a function body (an awaited promise included):
    a value, or a thrown value. *)
Inductive Completion (A : Type) :=
| Normal (a : A)
| Abrupt (e : Thrown).
Arguments Normal {A} a.
Arguments Abrupt {A} e.

Definition bindCompletion {A B} (c : Completion A) (k : A -> Completion B)
  : Completion B :=
  match c with
  | Normal a => k a
  | Abrupt e => Abrupt e
  end.

(** [try { c } catch (error) { handler error }] *)
Definition tryCatch {A} (c : Completion A) (handler : Thrown -> Completion A)
  : Completion A :=
  match c with
  | Normal a => Normal a
  | Abrupt e => handler e
  end.

(** The template literal [`${error}`] in the argument of a logger call.
    The text goes to the log; what matters here is that the conversion
    throws a [TypeError] when the value has no string form. *)
Definition interpolateThrown (error : Thrown) : Completion unit :=
  match error with
  | NonError false => Abrupt (ErrorInstance "Cannot convert value to a string")
  | _ => Normal tt
  end.

(** Methods of objects with fields: a state is threaded through, and a
    thrown value leaves the assignments made before it in place. *)
Definition M (S A : Type) : Type := S -> Completion A * S.

Definition ret {S A} (a : A) : M S A := fun s => (Normal a, s).
Definition throw {S A} (e : Thrown) : M S A := fun s => (Abrupt e, s).
Definition bind {S A B} (m : M S A) (k : A -> M S B) : M S B :=
  fun s =>
    match m s with
    | (Normal a, s') => k a s'
    | (Abrupt e, s') => (Abrupt e, s')
    end.
Definition tryCatchM {S A} (m : M S A) (handler : Thrown -> M S A) : M S A :=
  fun s =>
    match m s with
    | (Normal a, s') => (Normal a, s')
    | (Abrupt e, s') => handler e s'
    end.
Definition gets {S A} (f : S -> A) : M S A := fun s => (Normal (f s), s).
Definition modify {S} (f : S -> S) : M S unit := fun s => (Normal tt, f s).
Definition lift {S A} (c : Completion A) : M S A := fun s => (c, s).

Declare Scope js_scope.
Delimit Scope js_scope with js.
Notation "'do' x <- m ;; k" := (bind m (fun x => k))
  (at level 10, x name, m at level 99, k at level 200, only parsing) : js_scope.
Notation "m ;; k" := (bind m (fun _ => k))
  (at level 100, k at level 200, right associativity, only parsing) : js_scope.

(** ** Data model ([src/types/index.ts]) *)

(** Milliseconds since the epoch, the value of a [Date]. *)
Definition Time : Type := Z.

Inductive Role := user | assistant | system.
Inductive ContentType := text | image | file.

Record MessageContent := {
  content_type : ContentType;
  content_content : string
}.

Record Message := {
  message_id : string;
  message_role : Role;
  message_content : list MessageContent;
  message_timestamp : Time;
  message_conversationId : string
}.

Record Conversation := {
  conversation_id : string;
  messages : list Message;
  createdAt : Time;
  updatedAt : Time
}.

(** The [context] argument of an improver: absent, or the object that
    [processMessage] builds. *)
Record MessageContext := {
  context_conversationId : string;
  context_messageId : string;
  context_role : Role
}.
Definition Context : Type := option MessageContext.

(** ['custom' | 'default' | 'none'] *)
Inductive ImprovementType :=
| CustomImprovement
| DefaultImprovement
| NoImprovement.

(** The three shapes of [metadata] that the source builds. *)
Inductive Metadata :=
| ImproverMetadata (improver : string) (context : Context)
| ErrorMetadata (error : string)
| MessageMetadata (messageId conversationId : string).

(** The values that can end up in [improvedMessage] at run time.  An
    improver is typed to return a string; the functions inherited from
    [Object.prototype] are not. *)
Inductive JsValue :=
| JsString (s : string)
| JsBoolean (b : bool)
| JsStringObject (s : string).

Record MessageImprovementResult := {
  originalMessage : string;
  improvedMessage : JsValue;
  improvementType : ImprovementType;
  metadata : Metadata
}.

(** What one call draws from the environment ([Math.random] in the
    ["creative"] improver). *)
Definition Entropy : Type := nat.

(** [type MessageImprover = (message, context?) => string | Promise<string>],
    imported by the class as [MessageImproverType]. *)
Definition MessageImproverType : Type :=
  string -> Context -> Entropy -> Completion string.

Record MessageProcessingOptions := {
  improveMessage : option bool;
  improverName : option string
}.

(** ** [Object.prototype] *)

(** The properties of [Object.prototype]; every plain object inherits
    them. *)
Inductive ObjectPrototypeMember :=
| OP_constructor
| OP_defineGetter
| OP_defineSetter
| OP_hasOwnProperty
| OP_lookupGetter
| OP_lookupSetter
| OP_isPrototypeOf
| OP_propertyIsEnumerable
| OP_toString
| OP_valueOf
| OP_proto
| OP_toLocaleString.

Definition objectPrototypeMembers : list (string * ObjectPrototypeMember) :=
  [ ("constructor", OP_constructor);
    ("__defineGetter__", OP_defineGetter);
    ("__defineSetter__", OP_defineSetter);
    ("hasOwnProperty", OP_hasOwnProperty);
    ("__lookupGetter__", OP_lookupGetter);
    ("__lookupSetter__", OP_lookupSetter);
    ("isPrototypeOf", OP_isPrototypeOf);
    ("propertyIsEnumerable", OP_propertyIsEnumerable);
    ("toString", OP_toString);
    ("valueOf", OP_valueOf);
    ("__proto__", OP_proto);
    ("toLocaleString", OP_toLocaleString) ].

Fixpoint assoc {A} (name : string) (l : list (string * A)) : option A :=
  match l with
  | [] => None
  | (k, v) :: l' => if String.eqb k name then Some v else assoc name l'
  end.

Definition objectPrototypeMember (name : string) : option ObjectPrototypeMember :=
  assoc name objectPrototypeMembers.

(** What [this.improvers[name]] evaluates to when it is not [undefined]: a
    registered improver, or a value inherited from [Object.prototype].
    Both are truthy. *)
Inductive Property :=
| Registered (improver : MessageImproverType)
| Inherited (member : ObjectPrototypeMember).

(** [object[name]] on an object whose own properties are [own] and whose
    prototype is [Object.prototype]. *)
Definition getProperty (own : gmap string MessageImproverType) (name : string)
  : option Property :=
  match own !! name with
  | Some improver => Some (Registered improver)
  | None => Inherited <$> objectPrototypeMember name
  end.

(** ** [src/core/message-improver.ts] *)

Module MessageImprover.

(** The fields of the class: [improvers] (own properties of the object
    literal) and [activeImprover]. *)
Record t := {
  improvers : gmap string MessageImproverType;
  activeImprover : string
}.

Section Runtime.

(** [String.prototype.toUpperCase] and [toLowerCase]. *)
Variables toUpperCase toLowerCase : string -> string.

(** The message of the [TypeError] that the engine throws when the
    given member of [Object.prototype] is called as an improver. *)
Variable typeErrorMessage : ObjectPrototypeMember -> string.

(** *** The seed improvers ([registerDefaultImprovers]) *)

Definition defaultImprover : MessageImproverType := fun message _ _ =>
  let improved := Js.trim message in
  if String.length improved =? 0 then Normal improved else
  let improved := toUpperCase (Js.charAt 0 improved) +:+ Js.slice 1 improved in
  let improved :=
    if negb (Js.endsWithPunctuation improved) then improved +:+ "." else improved in
  Normal improved.

(** [Object.entries(replacements)]: none of the keys is an array index,
    so the order is the order of the literal. *)
Definition replacements : list (string * string) :=
  [ ("hi", "Hello"); ("hey", "Hello"); ("thanks", "Thank you");
    ("thx", "Thank you"); ("u", "you"); ("ur", "your"); ("r", "are");
    ("btw", "by the way"); ("asap", "as soon as possible");
    ("fyi", "for your information") ].

Definition professionalImprover : MessageImproverType := fun message _ _ =>
  let improved := Js.trim message in
  if String.length improved =? 0 then Normal improved else
  let improved := toUpperCase (Js.charAt 0 improved) +:+ Js.slice 1 improved in
  let improved :=
    fold_left (fun improved entry => Js.replaceWord entry.1 entry.2 improved)
              replacements improved in
  let improved :=
    if negb (Js.endsWithPunctuation improved) then improved +:+ "." else improved in
  Normal improved.

Definition engagingStarters : list string :=
  [ "Exciting news: "; "Here's something interesting: ";
    "You won't believe this: "; "Get ready for: "; "Amazing discovery: " ].

(** [Math.floor(Math.random() * engagingStarters.length)] is any index of
    the array; the draw [ρ] decides which. *)
Definition creativeImprover : MessageImproverType := fun message _ ρ =>
  let improved := Js.trim message in
  if String.length improved =? 0 then Normal improved else
  let improved := toUpperCase (Js.charAt 0 improved) +:+ Js.slice 1 improved in
  let improved :=
    if (String.length improved <? 100) && negb (Js.includes improved ":")
    then nth (ρ mod length engagingStarters) engagingStarters "" +:+ improved
    else improved in
  let improved :=
    if Js.includes (toLowerCase improved) "amazing"
       || Js.includes (toLowerCase improved) "exciting"
       || Js.includes (toLowerCase improved) "incredible"
    then Js.replaceFinalPeriod improved
    else improved in
  let improved :=
    if negb (Js.endsWithPunctuation improved) then improved +:+ "." else improved in
  Normal improved.

(** *** The methods *)

(** [this.improvers[name] = improver].  For the key [__proto__] the
    assignment reaches the setter inherited from [Object.prototype]: no
    own property is added and the prototype of [improvers] is rebound to
    the function.  The own properties stay exact here; reads through a
    rebound prototype are not followed by the model. *)
Definition register (name : string) (improver : MessageImproverType) (this : t) : t :=
  {| improvers :=
       if String.eqb name "__proto__" then improvers this
       else <[name := improver]> (improvers this);
     activeImprover := activeImprover this |}.

Definition setActive (name : string) (this : t) : bool * t :=
  match getProperty (improvers this) name with
  | None => (false, this)
  | Some _ =>
      (true, {| improvers := improvers this; activeImprover := name |})
  end.

Definition getActive (this : t) : string := activeImprover this.

(** [name in this.improvers] *)
Definition exists_ (name : string) (this : t) : bool :=
  match getProperty (improvers this) name with
  | Some _ => true
  | None => false
  end.

Definition remove (name : string) (this : t) : bool * t :=
  if String.eqb name "default" then (false, this)
  else
    (true,
     {| improvers := delete name (improvers this);
        activeImprover :=
          if String.eqb (activeImprover this) name then "default"
          else activeImprover this |}).

(** [improver(message, context)] with [this] undefined.  Of the members
    of [Object.prototype], [Object] wraps the string, [toString] answers
    for [undefined], [isPrototypeOf] answers [false] for a primitive,
    [__proto__] reads an object that is not callable, and the others
    fail in [ToObject(undefined)]. *)
Definition invoke (improver : Property) (message : string) (context : Context)
    (ρ : Entropy) : Completion JsValue :=
  match improver with
  | Registered f => bindCompletion (f message context ρ) (fun s => Normal (JsString s))
  | Inherited OP_constructor => Normal (JsStringObject message)
  | Inherited OP_toString => Normal (JsString "[object Undefined]")
  | Inherited OP_isPrototypeOf => Normal (JsBoolean false)
  | Inherited member => Abrupt (ErrorInstance (typeErrorMessage member))
  end.

(** [error instanceof Error ? error.message : 'Unknown error'] *)
Definition errorText (error : Thrown) : string :=
  match error with
  | ErrorInstance message => message
  | AxiosError _ _ message => message
  | NonError _ => "Unknown error"
  end.

Definition notFound (message : string) : MessageImprovementResult :=
  {| originalMessage := message;
     improvedMessage := JsString message;
     improvementType := NoImprovement;
     metadata := ErrorMetadata "Improver not found" |}.

Definition improve (message : string) (context : Context) (ρ : Entropy) (this : t)
  : Completion MessageImprovementResult :=
  match getProperty (improvers this) (activeImprover this) with
  | None => Normal (notFound message)
  | Some improver =>
      tryCatch
        (bindCompletion (invoke improver message context ρ) (fun improvedMessage =>
           Normal
             {| originalMessage := message;
                improvedMessage := improvedMessage;
                improvementType :=
                  if String.eqb (activeImprover this) "default"
                  then DefaultImprovement else CustomImprovement;
                metadata := ImproverMetadata (activeImprover this) context |}))
        (fun error =>
           bindCompletion (interpolateThrown error) (fun _ =>
             Normal
               {| originalMessage := message;
                  improvedMessage := JsString message;
                  improvementType := NoImprovement;
                  metadata := ErrorMetadata (errorText error) |}))
  end.

Definition improveWith (name message : string) (context : Context) (ρ : Entropy)
    (this : t) : Completion MessageImprovementResult :=
  match getProperty (improvers this) name with
  | None => Normal (notFound message)
  | Some improver =>
      tryCatch
        (bindCompletion (invoke improver message context ρ) (fun improvedMessage =>
           Normal
             {| originalMessage := message;
                improvedMessage := improvedMessage;
                improvementType :=
                  if String.eqb name "default"
                  then DefaultImprovement else CustomImprovement;
                metadata := ImproverMetadata name context |}))
        (fun error =>
           bindCompletion (interpolateThrown error) (fun _ =>
             Normal
               {| originalMessage := message;
                  improvedMessage := JsString message;
                  improvementType := NoImprovement;
                  metadata := ErrorMetadata (errorText error) |}))
  end.

Definition registerDefaultImprovers (this : t) : t :=
  register "creative" creativeImprover
    (register "professional" professionalImprover
       (register "default" defaultImprover this)).

(** The constructor, from the field initialisers [{}] and ['default']. *)
Definition new : t :=
  registerDefaultImprovers {| improvers := ∅; activeImprover := "default" |}.

(** [Object.keys(this.improvers)]: the own keys.  The enumeration order
    of the object is not modelled; the result is a list without
    duplicates of exactly the own keys. *)
Definition list (this : t) : Datatypes.list string :=
  elements (dom (improvers this)).

End Runtime.

End MessageImprover.

(** ** [src/core/registry-client.ts] *)

Module RegistryClient.

Record t := {
  isRegistered : bool
}.

(** What the HTTP exchange behind [axios.post] comes to: a response with
    a status, or no response at all (connection refused, host not found,
    the 30 s timeout) with the [code] and [message] of the error. *)
Inductive HttpExchange :=
| Responded (response : AxiosResponse)
| Failed (code : option string) (message : string).

(** [validateStatus: (status) => status < 500] *)
Definition validateStatus (status : Z) : bool := (status <? 500)%Z.

(** [axios.post(url, data, { timeout, validateStatus })]: the promise
    resolves with every response that [validateStatus] accepts and is
    rejected with an [AxiosError] that carries the response otherwise.
    ([register] only logs the [code] and [message] of such a rejection.) *)
Definition axiosPost (exchange : HttpExchange) : Completion AxiosResponse :=
  match exchange with
  | Responded response =>
      if validateStatus (status response) then Normal response
      else Abrupt (AxiosError (Some "ERR_BAD_RESPONSE") (Some response)
                              "Request failed")
  | Failed code message => Abrupt (AxiosError code None message)
  end.

(** A template literal over the body of a response. *)
Definition interpolate (d : ResponseData) : Completion string :=
  match coerce d with
  | Some s => Normal s
  | None => Abrupt (ErrorInstance "Cannot convert object to primitive value")
  end.

Definition codeIs (code : option string) (expected : string) : bool :=
  match code with
  | Some c => String.eqb c expected
  | None => false
  end.

(** [error.response?.status === 400] *)
Definition responseStatusIs (response : option AxiosResponse) (expected : Z) : bool :=
  match response with
  | Some r => (status r =? expected)%Z
  | None => false
  end.

Definition register (exchange : HttpExchange) : M t bool :=
  tryCatchM
    (do response <- lift (axiosPost exchange) ;;
     if (status response =? 200)%Z then
       modify (fun _ => {| isRegistered := true |}) ;;
       ret true
     else
       do _ <- lift (interpolate (data response)) ;;
       ret false)%js
    (fun error =>
       (match error with
        | AxiosError code response _ =>
            if codeIs code "ECONNREFUSED" || codeIs code "ENOTFOUND" then ret tt
            else if responseStatusIs response 400 then
              match response with
              | Some r => do _ <- lift (interpolate (data r)) ;; ret tt
              | None => ret tt
              end
            else ret tt
        | _ => lift (interpolateThrown error)
        end ;;
        modify (fun _ => {| isRegistered := false |}) ;;
        ret false)%js).

(** [axios.delete] and [axios.put] are called with the same
    [validateStatus] and settle as [axios.post] does. *)
Definition axiosDelete : HttpExchange -> Completion AxiosResponse := axiosPost.
Definition axiosPut : HttpExchange -> Completion AxiosResponse := axiosPost.

Definition unregister (exchange : HttpExchange) : M t bool :=
  tryCatchM
    (do registered <- gets isRegistered ;;
     if negb registered then ret true
     else
       do response <- lift (axiosDelete exchange) ;;
       if (status response =? 200)%Z || (status response =? 404)%Z then
         modify (fun _ => {| isRegistered := false |}) ;;
         ret true
       else ret false)%js
    (fun error => lift (interpolateThrown error) ;; ret false)%js.

Definition isAgentRegistered (this : t) : bool := isRegistered this.

(** The [updates] go into the body of the request, which is not
    modelled. *)
Definition updateRegistration (exchange : HttpExchange) : M t bool :=
  tryCatchM
    (do registered <- gets isRegistered ;;
     if negb registered then ret false
     else
       do response <- lift (axiosPut exchange) ;;
       if (status response =? 200)%Z then ret true else ret false)%js
    (fun error => lift (interpolateThrown error) ;; ret false)%js.

(** The body of the request (a time stamp and ['alive']) is not
    modelled. *)
Definition heartbeat (exchange : HttpExchange) : M t bool :=
  tryCatchM
    (do registered <- gets isRegistered ;;
     if negb registered then ret false
     else
       do response <- lift (axiosPost exchange) ;;
       ret (status response =? 200)%Z)%js
    (fun error => lift (interpolateThrown error) ;; ret false)%js.

End RegistryClient.

(** ** [src/core/agent-bridge.ts] and [src/core/api-server.ts]: [start] *)

Module AgentBridge.

Record t := {
  isRunning : bool
}.

Definition start : M t unit :=
  tryCatchM
    (modify (fun _ => {| isRunning := true |}))
    (fun error => lift (interpolateThrown error) ;; throw error)%js.

Definition stop : M t unit :=
  tryCatchM
    (modify (fun _ => {| isRunning := false |}))
    (fun error => lift (interpolateThrown error) ;; throw error)%js.

Definition isBridgeRunning (this : t) : bool := isRunning this.

Definition sendMessage (message : Message) : M t unit :=
  (do running <- gets isRunning ;;
   if negb running then throw (ErrorInstance "Agent bridge is not running")
   else
     tryCatchM (ret tt)
       (fun error => lift (interpolateThrown error) ;; throw error))%js.

End AgentBridge.

Module ApiServer.

Record t := {
  isRunning : bool
}.

(** [listen] is what [this.app.listen(port, callback)] comes to: the
    callback runs, or the server emits ['error'] and the promise is
    rejected with it.  The promise is returned from inside the [try]
    without [await], so its rejection does not pass through the [catch]
    clause. *)
Definition start (listen : Completion unit) : M t unit :=
  (lift listen ;; modify (fun _ => {| isRunning := true |}))%js.

End ApiServer.

(** ** [src/core/nanda.ts] *)

Module NANDA.

(** The fields of the class that the modelled methods read or write. *)
Record t := {
  conversations : gmap string Conversation;
  agentBridge : AgentBridge.t;
  apiServer : ApiServer.t;
  registryClient : RegistryClient.t;
  messageCount : nat;
  isRunning : bool
}.

(** The wall clock: [readings k] is what the [k]-th evaluation of
    [new Date()] yields, [reads] counts the evaluations so far. *)
Record Clock := {
  readings : nat -> Time;
  reads : nat
}.

(** What a method of the agent runs in: the instance, the module-level
    singleton [messageImprover] and the clock. *)
Record World := {
  nanda : t;
  messageImprover : MessageImprover.t;
  clock : Clock
}.

Definition withNanda (f : t -> t) (w : World) : World :=
  {| nanda := f (nanda w); messageImprover := messageImprover w; clock := clock w |}.

Definition setConversation (id : string) (conversation : Conversation) (this : t) : t :=
  {| conversations := <[id := conversation]> (conversations this);
     agentBridge := agentBridge this;
     apiServer := apiServer this;
     registryClient := registryClient this;
     messageCount := messageCount this;
     isRunning := isRunning this |}.

Definition incrementMessageCount (this : t) : t :=
  {| conversations := conversations this;
     agentBridge := agentBridge this;
     apiServer := apiServer this;
     registryClient := registryClient this;
     messageCount := messageCount this + 1;
     isRunning := isRunning this |}.

Definition setIsRunning (b : bool) (this : t) : t :=
  {| conversations := conversations this;
     agentBridge := agentBridge this;
     apiServer := apiServer this;
     registryClient := registryClient this;
     messageCount := messageCount this;
     isRunning := b |}.

(** Run a method of a collaborator on the field that holds it. *)
Definition onAgentBridge {A} (m : M AgentBridge.t A) : M t A := fun this =>
  let (r, bridge) := m (agentBridge this) in
  (r, {| conversations := conversations this;
         agentBridge := bridge;
         apiServer := apiServer this;
         registryClient := registryClient this;
         messageCount := messageCount this;
         isRunning := isRunning this |}).

Definition onApiServer {A} (m : M ApiServer.t A) : M t A := fun this =>
  let (r, server) := m (apiServer this) in
  (r, {| conversations := conversations this;
         agentBridge := agentBridge this;
         apiServer := server;
         registryClient := registryClient this;
         messageCount := messageCount this;
         isRunning := isRunning this |}).

Definition onRegistryClient {A} (m : M RegistryClient.t A) : M t A := fun this =>
  let (r, client) := m (registryClient this) in
  (r, {| conversations := conversations this;
         agentBridge := agentBridge this;
         apiServer := apiServer this;
         registryClient := client;
         messageCount := messageCount this;
         isRunning := isRunning this |}).

(** [new Date()] *)
Definition newDate : M World Time := fun w =>
  (Normal (readings (clock w) (reads (clock w))),
   {| nanda := nanda w;
      messageImprover := messageImprover w;
      clock := {| readings := readings (clock w); reads := S (reads (clock w)) |} |}).

(** The first half of [storeMessage]: the conversation of the message,
    created and entered in the map when there is none. *)
Definition lookupOrCreate (message : Message) : M World Conversation :=
  (do found <- gets (fun w => conversations (nanda w) !! message_conversationId message) ;;
   match found with
   | Some conversation => ret conversation
   | None =>
       do created <- newDate ;;
       do updated <- newDate ;;
       let conversation :=
         {| conversation_id := message_conversationId message;
            messages := [];
            createdAt := created;
            updatedAt := updated |} in
       modify (withNanda (setConversation (message_conversationId message) conversation)) ;;
       ret conversation
   end)%js.

(** [conversation] is the object held by the map under the
    [conversationId] of the message; writing to it is writing to that
    entry. *)
Definition storeMessage (message : Message) : M World unit :=
  (do conversation <- lookupOrCreate message ;;
   let pushed :=
     {| conversation_id := conversation_id conversation;
        messages := messages conversation ++ [message];
        createdAt := createdAt conversation;
        updatedAt := updatedAt conversation |} in
   modify (withNanda (setConversation (message_conversationId message) pushed)) ;;
   do now <- newDate ;;
   modify (withNanda (setConversation (message_conversationId message)
     {| conversation_id := conversation_id pushed;
        messages := messages pushed;
        createdAt := createdAt pushed;
        updatedAt := now |})))%js.

(** [message.content[0]?.content || ''] *)
Definition firstContent (message : Message) : string :=
  match message_content message with
  | c :: _ => content_content c
  | [] => ""
  end.

(** [options.improverName || messageImprover.getActive()]: the empty
    string is falsy. *)
Definition resolveImproverName (options : MessageProcessingOptions)
    (registry : MessageImprover.t) : string :=
  match improverName options with
  | Some name =>
      if String.eqb name "" then MessageImprover.getActive registry else name
  | None => MessageImprover.getActive registry
  end.

(** [options.improveMessage !== false] *)
Definition improvementEnabled (options : MessageProcessingOptions) : bool :=
  match improveMessage options with
  | Some false => false
  | _ => true
  end.

Section Runtime.

Variable typeErrorMessage : ObjectPrototypeMember -> string.

Definition processMessage (message : Message) (options : MessageProcessingOptions)
    (ρ : Entropy) : M World MessageImprovementResult :=
  tryCatchM
    (modify (withNanda incrementMessageCount) ;;
     storeMessage message ;;
     if improvementEnabled options then
       do name <- gets (fun w => resolveImproverName options (messageImprover w)) ;;
       do result <- (fun w =>
         (MessageImprover.improveWith typeErrorMessage name (firstContent message)
            (Some {| context_conversationId := message_conversationId message;
                     context_messageId := message_id message;
                     context_role := message_role message |})
            ρ (messageImprover w), w)) ;;
       ret result
     else
       ret {| originalMessage := firstContent message;
              improvedMessage := JsString (firstContent message);
              improvementType := NoImprovement;
              metadata := MessageMetadata (message_id message)
                                          (message_conversationId message) |})%js
    (fun error => lift (interpolateThrown error) ;; throw error)%js.

End Runtime.

(** [listen] and [exchange] are what the environment answers to the API
    server and to the registration request. *)
Definition start (listen : Completion unit) (exchange : RegistryClient.HttpExchange)
  : M t unit :=
  tryCatchM
    (onAgentBridge AgentBridge.start ;;
     onApiServer (ApiServer.start listen) ;;
     do _ <- onRegistryClient (RegistryClient.register exchange) ;;
     modify (setIsRunning true))%js
    (fun error => lift (interpolateThrown error) ;; throw error)%js.

(** The field initialisers of the class ([new Map()], [0], [false]) and of
    its collaborators. *)
Definition new : t :=
  {| conversations := ∅;
     agentBridge := {| AgentBridge.isRunning := false |};
     apiServer := {| ApiServer.isRunning := false |};
     registryClient := {| RegistryClient.isRegistered := false |};
     messageCount := 0;
     isRunning := false |}.

Definition getConversation (conversationId : string) (this : t) : option Conversation :=
  conversations this !! conversationId.

(** [this.conversations.delete(conversationId)] returns whether the key
    was present. *)
Definition deleteConversation (conversationId : string) : M t bool := fun this =>
  (Normal (bool_decide (is_Some (conversations this !! conversationId))),
   {| conversations := delete conversationId (conversations this);
      agentBridge := agentBridge this;
      apiServer := apiServer this;
      registryClient := registryClient this;
      messageCount := messageCount this;
      isRunning := isRunning this |}).

Definition isAgentRunning (this : t) : bool := isRunning this.

(** Run a method of the agent in the world it lives in. *)
Definition onNanda {A} (m : M t A) : M World A := fun w =>
  let (r, this) := m (nanda w) in
  (r, {| nanda := this; messageImprover := messageImprover w; clock := clock w |}).

End NANDA.

(** ** Vocabulary of the specification *)

(** A text that is empty or made of white space only. *)
Fixpoint allWhiteSpace (s : string) : bool :=
  match s with
  | EmptyString => true
  | String c r => Js.isWhiteSpace c && allWhiteSpace r
  end.

(** The registry states that the public operations [register], [remove]
    and [setActive] lead to, starting from [initial]. *)
Inductive Reachable (initial : MessageImprover.t) : MessageImprover.t -> Prop :=
| reach_initial : Reachable initial initial
| reach_register name improver this :
    Reachable initial this ->
    Reachable initial (MessageImprover.register name improver this)
| reach_remove name this :
    Reachable initial this ->
    Reachable initial (MessageImprover.remove name this).2
| reach_setActive name this :
    Reachable initial this ->
    Reachable initial (MessageImprover.setActive name this).2.

(** A clock that does not run backwards. *)
Definition Monotone (c : NANDA.Clock) : Prop :=
  forall i j, i <= j -> (NANDA.readings c i <= NANDA.readings c j)%Z.

(** [toUpperCase] neither makes nor unmakes a final [.], [!] or [?]. *)
Definition KeepsPunctuation (toUpperCase : string -> string) : Prop :=
  forall c, Js.endsWithPunctuation (toUpperCase (String c EmptyString))
            = Js.isTerminalPunctuation c.

(** Instances for closed examples: the engine's messages, an improver that
    runs [throw new Error()], a clock that ticks at every reading. *)
Definition sampleTypeErrorMessage (member : ObjectPrototypeMember) : string :=
  match member with
  | OP_proto => "improver is not a function"
  | _ => "Cannot convert undefined or null to object"
  end.

Definition throwsEmptyError : MessageImproverType :=
  fun _ _ _ => Abrupt (ErrorInstance "").

(** An improver that runs [throw new Error('kaput')]. *)
Definition throwsKaput : MessageImproverType :=
  fun _ _ _ => Abrupt (ErrorInstance "kaput").

Definition sampleRegistry : MessageImprover.t :=
  MessageImprover.new Js.asciiToUpperCase Js.asciiToLowerCase.

Definition tickingClock : NANDA.Clock :=
  {| NANDA.readings := fun k => Z.of_nat k; NANDA.reads := 0 |}.

Definition sampleWorld : NANDA.World :=
  {| NANDA.nanda := NANDA.new;
     NANDA.messageImprover := sampleRegistry;
     NANDA.clock := tickingClock |}.

(** A clock that is set back between readings. *)
Definition backwardsClock : NANDA.Clock :=
  {| NANDA.readings := fun k => (10 - Z.of_nat k)%Z; NANDA.reads := 0 |}.

Definition backwardsWorld : NANDA.World :=
  {| NANDA.nanda := NANDA.new;
     NANDA.messageImprover := sampleRegistry;
     NANDA.clock := backwardsClock |}.

Definition sampleMessage (id content : string) : Message :=
  {| message_id := id;
     message_role := user;
     message_content := [ {| content_type := text; content_content := content |} ];
     message_timestamp := 0%Z;
     message_conversationId := "c1" |}.

(** The messages held for a conversation id; none when the id is
    unknown. *)
Definition messagesOf (conversationId : string) (w : NANDA.World) : list Message :=
  match NANDA.getConversation conversationId (NANDA.nanda w) with
  | Some conversation => messages conversation
  | None => []
  end.

(** One call of [processMessage]: the message, the options and the draw. *)
Definition Call : Type := Message * MessageProcessingOptions * Entropy.

(** The world after a sequence of calls of [processMessage], each run on
    the world that the one before left, whether it returned or threw. *)
Definition processAll (typeErrorMessage : ObjectPrototypeMember -> string)
    (calls : list Call) (w : NANDA.World) : NANDA.World :=
  fold_left
    (fun w call => (NANDA.processMessage typeErrorMessage call.1.1 call.1.2 call.2 w).2)
    calls w.

(** The worlds that calls of [processMessage] and [deleteConversation]
    lead to, starting from [initial]. *)
Inductive Runs (typeErrorMessage : ObjectPrototypeMember -> string)
    (initial : NANDA.World) : NANDA.World -> Prop :=
| runs_initial : Runs typeErrorMessage initial initial
| runs_processMessage message options ρ w :
    Runs typeErrorMessage initial w ->
    Runs typeErrorMessage initial
      (NANDA.processMessage typeErrorMessage message options ρ w).2
| runs_deleteConversation conversationId w :
    Runs typeErrorMessage initial w ->
    Runs typeErrorMessage initial
      (NANDA.onNanda (NANDA.deleteConversation conversationId) w).2.

(** An improver that returns its input. *)
Definition echo : MessageImproverType := fun message _ _ => Normal message.

(** ** Strings *)

Lemma substring_all (s : string) : String.substring 0 (String.length s) s = s.
Proof. induction s as [|c r IH]; simpl; [reflexivity | now rewrite IH]. Qed.

Lemma charAt_0_cons c r : Js.charAt 0 (String c r) = String c EmptyString.
Proof. unfold Js.charAt. simpl. now destruct r. Qed.

Lemma slice_1_cons c r : Js.slice 1 (String c r) = r.
Proof.
  unfold Js.slice. simpl. rewrite Nat.sub_0_r. apply substring_all.
Qed.

Lemma append_empty_r (s : string) : s +:+ "" = s.
Proof. induction s as [|c r IH]; [reflexivity | exact (f_equal (String c) IH)]. Qed.

Lemma append_assoc (a b c : string) : (a +:+ b) +:+ c = a +:+ (b +:+ c).
Proof. induction a as [|x a IH]; [reflexivity | exact (f_equal (String x) IH)]. Qed.

Lemma lastChar_cons_Some c r : exists x, Js.lastChar (String c r) = Some x.
Proof.
  revert c. induction r as [|d r IH]; intros c; [now exists c|].
  destruct (IH d) as [x Hx]. exists x.
  change (Js.lastChar (String c (String d r))) with (Js.lastChar (String d r)).
  exact Hx.
Qed.

Lemma lastChar_cons c r :
  Js.lastChar (String c r) =
  match Js.lastChar r with Some x => Some x | None => Some c end.
Proof.
  destruct r as [|d r]; [reflexivity|].
  change (Js.lastChar (String c (String d r))) with (Js.lastChar (String d r)).
  destruct (lastChar_cons_Some d r) as [x Hx]. now rewrite Hx.
Qed.

Lemma lastChar_append (a b : string) :
  Js.lastChar (a +:+ b) =
  match Js.lastChar b with Some x => Some x | None => Js.lastChar a end.
Proof.
  induction a as [|x a IH].
  - change ("" +:+ b) with b. now destruct (Js.lastChar b).
  - change (String x a +:+ b) with (String x (a +:+ b)).
    rewrite !lastChar_cons, IH.
    destruct (Js.lastChar b); [reflexivity|]. now destruct (Js.lastChar a).
Qed.

Lemma lastChar_None (s : string) : Js.lastChar s = None -> s = EmptyString.
Proof.
  destruct s as [|c r]; [reflexivity|].
  rewrite lastChar_cons. now destruct (Js.lastChar r).
Qed.

Lemma trimStart_allWhiteSpace (s : string) :
  allWhiteSpace s = true -> Js.trimStart s = EmptyString.
Proof.
  induction s as [|c r IH]; simpl; [reflexivity|].
  intros [Hc Hr]%andb_prop. rewrite Hc. now apply IH.
Qed.

Lemma trim_allWhiteSpace (s : string) :
  allWhiteSpace s = true -> Js.trim s = EmptyString.
Proof.
  intros H. unfold Js.trim. now rewrite trimStart_allWhiteSpace.
Qed.

Lemma length_0_empty (s : string) : (String.length s =? 0) = true -> s = EmptyString.
Proof. now destruct s. Qed.

(** ** The seed improvers *)

Section Improvers.

Variables toUpperCase toLowerCase : string -> string.

(** The three seed improvers start alike: trim, and stop on an empty
    text. *)
Lemma defaultImprover_empty message context ρ :
  Js.trim message = EmptyString ->
  MessageImprover.defaultImprover toUpperCase message context ρ = Normal EmptyString.
Proof. intros H. unfold MessageImprover.defaultImprover. now rewrite H. Qed.

Lemma professionalImprover_empty message context ρ :
  Js.trim message = EmptyString ->
  MessageImprover.professionalImprover toUpperCase message context ρ = Normal EmptyString.
Proof. intros H. unfold MessageImprover.professionalImprover. now rewrite H. Qed.

Lemma creativeImprover_empty message context ρ :
  Js.trim message = EmptyString ->
  MessageImprover.creativeImprover toUpperCase toLowerCase message context ρ
  = Normal EmptyString.
Proof. intros H. unfold MessageImprover.creativeImprover. now rewrite H. Qed.

(** What ["default"] makes of a text that is not empty once trimmed. *)
Lemma defaultImprover_cons message context ρ c r :
  Js.trim message = String c r ->
  MessageImprover.defaultImprover toUpperCase message context ρ =
  Normal
    (let improved := toUpperCase (String c EmptyString) +:+ r in
     if Js.endsWithPunctuation improved then improved else improved +:+ ".").
Proof.
  intros H. unfold MessageImprover.defaultImprover. rewrite H.
  rewrite charAt_0_cons, slice_1_cons. simpl.
  now destruct (Js.endsWithPunctuation _).
Qed.

Lemma endsWithPunctuation_capitalized c r :
  KeepsPunctuation toUpperCase ->
  Js.endsWithPunctuation (toUpperCase (String c EmptyString) +:+ r)
  = Js.endsWithPunctuation (String c r).
Proof.
  intros H. unfold Js.endsWithPunctuation at 1 2.
  rewrite lastChar_append, lastChar_cons.
  destruct (Js.lastChar r) as [x|]; [reflexivity|].
  apply H.
Qed.

(** C7 (as amended).  For every input whose trimmed text is not empty,
    ["default"] returns the trimmed text with its first character in
    upper case, followed by a period unless the trimmed text already ends
    in [.], [!] or [?]; it maps ["hi there"] to ["Hi there."]. *)
Theorem default_improver_capitalizes_and_punctuates message context ρ :
  KeepsPunctuation toUpperCase ->
  Js.trim message <> EmptyString ->
  MessageImprover.defaultImprover toUpperCase message context ρ =
    Normal (toUpperCase (Js.charAt 0 (Js.trim message))
            +:+ Js.slice 1 (Js.trim message)
            +:+ (if Js.endsWithPunctuation (Js.trim message) then "" else "."))
  /\ (toUpperCase "h" = "H" ->
      MessageImprover.defaultImprover toUpperCase "hi there" context ρ
      = Normal "Hi there.").
Proof.
  intros Hkeep Hne. split.
  - destruct (Js.trim message) as [|c r] eqn:Ht; [congruence|].
    rewrite (defaultImprover_cons _ _ _ c r Ht). cbv zeta.
    rewrite endsWithPunctuation_capitalized by assumption.
    rewrite charAt_0_cons, slice_1_cons.
    destruct (Js.endsWithPunctuation (String c r)); cbv iota.
    + now rewrite append_empty_r.
    + now rewrite append_assoc.
  - intros Hh.
    rewrite (defaultImprover_cons "hi there" context ρ "h" "i there" eq_refl).
    cbv zeta. rewrite Hh. reflexivity.
Qed.

(** C10.  On a text that is empty or white space only, ["default"],
    ["professional"] and ["creative"] return the empty string: nothing
    is capitalized and no punctuation is appended. *)
Theorem seed_improvers_on_blank_input message context ρ :
  allWhiteSpace message = true ->
  MessageImprover.defaultImprover toUpperCase message context ρ = Normal EmptyString
  /\ MessageImprover.professionalImprover toUpperCase message context ρ
     = Normal EmptyString
  /\ MessageImprover.creativeImprover toUpperCase toLowerCase message context ρ
     = Normal EmptyString.
Proof.
  intros H%trim_allWhiteSpace.
  auto using defaultImprover_empty, professionalImprover_empty,
    creativeImprover_empty.
Qed.

End Improvers.

(** ** The registry of improvers *)

Lemma getProperty_own (own : gmap string MessageImproverType) name improver :
  own !! name = Some improver ->
  getProperty own name = Some (Registered improver).
Proof. intros H. unfold getProperty. now rewrite H. Qed.

Lemma getProperty_None (own : gmap string MessageImproverType) name :
  getProperty own name = None <->
  own !! name = None /\ objectPrototypeMember name = None.
Proof.
  unfold getProperty. destruct (own !! name) as [f|].
  - split; [discriminate | intros [? _]; discriminate].
  - destruct (objectPrototypeMember name); simpl; split; try discriminate; auto.
    intros [_ ?]; discriminate.
Qed.

Lemma getProperty_insert_ne (own : gmap string MessageImproverType) name other f :
  name <> other ->
  getProperty (<[name := f]> own) other = getProperty own other.
Proof. intros H. unfold getProperty. now rewrite lookup_insert_ne. Qed.

Lemma getProperty_delete_ne (own : gmap string MessageImproverType) name other :
  name <> other ->
  getProperty (delete name own) other = getProperty own other.
Proof. intros H. unfold getProperty. now rewrite lookup_delete_ne. Qed.

Lemma elem_of_list_lookup_improvers this name :
  name ∈ MessageImprover.list this <->
  is_Some (MessageImprover.improvers this !! name).
Proof. unfold MessageImprover.list. now rewrite elem_of_elements, elem_of_dom. Qed.

Lemma remove_default this :
  MessageImprover.remove "default" this = (false, this).
Proof. reflexivity. Qed.

Lemma remove_other name this :
  name <> "default" ->
  MessageImprover.remove name this =
  (true,
   {| MessageImprover.improvers := delete name (MessageImprover.improvers this);
      MessageImprover.activeImprover :=
        if String.eqb (MessageImprover.activeImprover this) name then "default"
        else MessageImprover.activeImprover this |}).
Proof.
  intros H. unfold MessageImprover.remove.
  now destruct (String.eqb_spec name "default").
Qed.

Lemma remove_keeps_default name this :
  is_Some (MessageImprover.improvers this !! "default") ->
  is_Some (MessageImprover.improvers (MessageImprover.remove name this).2 !! "default").
Proof.
  intros H. destruct (decide (name = "default")) as [->|Hne].
  - now rewrite remove_default.
  - rewrite (remove_other _ _ Hne). simpl. now rewrite lookup_delete_ne.
Qed.

(** Removing the active improver makes ["default"] the active one. *)
Lemma remove_active_resets name this :
  name <> "default" ->
  MessageImprover.getActive this = name ->
  MessageImprover.getActive (MessageImprover.remove name this).2 = "default".
Proof.
  intros Hne Hact. rewrite (remove_other _ _ Hne).
  unfold MessageImprover.getActive in *. simpl. rewrite Hact.
  now rewrite String.eqb_refl.
Qed.

Lemma setActive_registered name improver this :
  MessageImprover.improvers this !! name = Some improver ->
  MessageImprover.setActive name this =
  (true, {| MessageImprover.improvers := MessageImprover.improvers this;
            MessageImprover.activeImprover := name |}).
Proof.
  intros H. unfold MessageImprover.setActive. now rewrite (getProperty_own _ _ _ H).
Qed.

(** A name that is neither registered nor a property of
    [Object.prototype] is refused. *)
Lemma setActive_unknown name this :
  MessageImprover.improvers this !! name = None ->
  objectPrototypeMember name = None ->
  MessageImprover.setActive name this = (false, this).
Proof.
  intros H1 H2. unfold MessageImprover.setActive.
  now rewrite (proj2 (getProperty_None _ _) (conj H1 H2)).
Qed.

Section Registry.

Variables toUpperCase toLowerCase : string -> string.
Variable typeErrorMessage : ObjectPrototypeMember -> string.

Local Abbreviation new := (MessageImprover.new toUpperCase toLowerCase).
Local Abbreviation improve := (MessageImprover.improve typeErrorMessage).
Local Abbreviation improveWith := (MessageImprover.improveWith typeErrorMessage).

Lemma new_improvers :
  MessageImprover.improvers new =
  <["creative" := MessageImprover.creativeImprover toUpperCase toLowerCase]>
    (<["professional" := MessageImprover.professionalImprover toUpperCase]>
       (<["default" := MessageImprover.defaultImprover toUpperCase]> ∅)).
Proof. reflexivity. Qed.

Lemma new_default :
  MessageImprover.improvers new !! "default"
  = Some (MessageImprover.defaultImprover toUpperCase).
Proof. rewrite new_improvers. now simplify_map_eq. Qed.

Lemma new_toString : MessageImprover.improvers new !! "toString" = None.
Proof. rewrite new_improvers. now simplify_map_eq. Qed.

(** A name that is neither registered nor a property of
    [Object.prototype] gets the answer "Improver not found". *)
Lemma improveWith_unknown name message context ρ this :
  MessageImprover.improvers this !! name = None ->
  objectPrototypeMember name = None ->
  improveWith name message context ρ this
  = Normal (MessageImprover.notFound message).
Proof.
  intros H1 H2. unfold MessageImprover.improveWith.
  now rewrite (proj2 (getProperty_None _ _) (conj H1 H2)).
Qed.

(** In every reachable state ["default"] is registered and the read
    [this.improvers[this.activeImprover]] finds a value, so that [improve]
    never answers "Improver not found".  (The read is the one of the
    model: own properties first, then [Object.prototype].) *)
Lemma reachable_invariant this :
  Reachable new this ->
  is_Some (MessageImprover.improvers this !! "default")
  /\ is_Some (getProperty (MessageImprover.improvers this)
                          (MessageImprover.activeImprover this)).
Proof.
  induction 1 as [|name improver this Hr [IHd IHa]
                  |name this Hr [IHd IHa]|name this Hr [IHd IHa]].
  - split.
    + rewrite new_default. eauto.
    + change (MessageImprover.activeImprover new) with "default".
      rewrite (getProperty_own _ _ _ new_default). eauto.
  - unfold MessageImprover.register. simpl.
    destruct (String.eqb name "__proto__"); [now split|].
    split.
    + destruct (decide (name = "default")) as [->|Hne].
      * rewrite lookup_insert_eq. eauto.
      * now rewrite lookup_insert_ne.
    + destruct (decide (name = MessageImprover.activeImprover this)) as [->|Hne].
      * erewrite getProperty_own by apply lookup_insert_eq. eauto.
      * now rewrite getProperty_insert_ne.
  - split; [now apply remove_keeps_default|].
    destruct (decide (name = "default")) as [->|Hne].
    + now rewrite remove_default.
    + rewrite (remove_other _ _ Hne). simpl.
      destruct (String.eqb_spec (MessageImprover.activeImprover this) name) as [Heq|Hneq].
      * destruct IHd as [f Hf].
        erewrite getProperty_own; [eauto|].
        rewrite lookup_delete_ne by assumption. exact Hf.
      * rewrite getProperty_delete_ne by congruence. exact IHa.
  - unfold MessageImprover.setActive.
    destruct (getProperty (MessageImprover.improvers this) name) as [p|] eqn:Hp;
      simpl; [|now split].
    split; [assumption|]. rewrite Hp. eauto.
Qed.

(** C1 (as amended).  [remove("default")] returns [false] and changes
    nothing, and ["default"] stays in [list()] whatever is removed; for
    every other name [remove] returns [true] whether or not the name was
    registered, and afterwards the name has no entry while every other
    entry is as before. *)
Theorem remove_protects_default_and_deletes (this : MessageImprover.t) (name : string) :
  MessageImprover.remove "default" this = (false, this)
  /\ ("default" ∈ MessageImprover.list this ->
      "default" ∈ MessageImprover.list (MessageImprover.remove name this).2)
  /\ (name <> "default" ->
      (MessageImprover.remove name this).1 = true
      /\ (name ∉ MessageImprover.list (MessageImprover.remove name this).2)
      /\ forall other, other <> name ->
           MessageImprover.improvers (MessageImprover.remove name this).2 !! other
           = MessageImprover.improvers this !! other).
Proof.
  split; [reflexivity|]. split.
  - rewrite !elem_of_list_lookup_improvers. apply remove_keeps_default.
  - intros Hne. rewrite (remove_other _ _ Hne). simpl. split; [reflexivity|]. split.
    + rewrite elem_of_list_lookup_improvers. simpl.
      rewrite lookup_delete_eq. now intros [? ?].
    + intros other Ho. now rewrite lookup_delete_ne.
Qed.

(** A thrown value without a string form escapes: the [catch] clause
    converts it for the log line before it builds the result. *)
Lemma improveWith_inconvertible_throw this name improver message context ρ :
  MessageImprover.improvers this !! name = Some improver ->
  improver message context ρ = Abrupt (NonError false) ->
  exists error, improveWith name message context ρ this = Abrupt error.
Proof.
  intros Hreg Hthrow. unfold MessageImprover.improveWith.
  rewrite (getProperty_own _ _ _ Hreg). simpl. rewrite Hthrow. simpl. eauto.
Qed.

(** C2 (as amended).  When a registered improver throws an [Error], or
    any other value that has a string form, [improveWith] (and [improve],
    when that improver is the active one) return normally with
    [improvementType] ["none"], [improvedMessage] equal to
    [originalMessage] and [metadata.error] set to the message of the
    thrown [Error], or to ["Unknown error"] for a value that is not an
    [Error]; that text is empty only when the message of the [Error]
    is. *)
Theorem throwing_improver_is_contained
    this name improver message context ρ error :
  MessageImprover.improvers this !! name = Some improver ->
  improver message context ρ = Abrupt error ->
  error <> NonError false ->
  let failed :=
    {| originalMessage := message;
       improvedMessage := JsString message;
       improvementType := NoImprovement;
       metadata := ErrorMetadata (MessageImprover.errorText error) |} in
  improveWith name message context ρ this = Normal failed
  /\ (MessageImprover.getActive this = name ->
      improve message context ρ this = Normal failed)
  /\ (MessageImprover.errorText error = "" ->
      error = ErrorInstance ""
      \/ exists code response, error = AxiosError code response "").
Proof.
  intros Hreg Hthrow Hconv failed.
  assert (Hlog : interpolateThrown error = Normal tt)
    by (destruct error as [m|code response m|[]]; [reflexivity.. | congruence]).
  split; [|split].
  - unfold MessageImprover.improveWith.
    rewrite (getProperty_own _ _ _ Hreg).
    unfold MessageImprover.invoke, tryCatch, bindCompletion.
    now rewrite Hthrow, Hlog.
  - unfold MessageImprover.getActive. intros Hact.
    unfold MessageImprover.improve. rewrite Hact.
    rewrite (getProperty_own _ _ _ Hreg).
    unfold MessageImprover.invoke, tryCatch, bindCompletion.
    now rewrite Hthrow, Hlog.
  - destruct error as [m|code response m|c]; simpl.
    + intros ->. now left.
    + intros ->. right. eauto.
    + discriminate.
Qed.

(** C3 (the code at the failing input).  ["toString"] is not registered
    in a fresh registry, yet [improveWith("toString", t)] finds
    [Object.prototype.toString], calls it and reports a ["custom"]
    improvement whose text is ["[object Undefined]"]. *)
Theorem improveWith_inherited_toString message context ρ :
  ("toString" ∉ MessageImprover.list new)
  /\ improveWith "toString" message context ρ new =
     Normal {| originalMessage := message;
               improvedMessage := JsString "[object Undefined]";
               improvementType := CustomImprovement;
               metadata := ImproverMetadata "toString" context |}.
Proof.
  split.
  - rewrite elem_of_list_lookup_improvers, new_toString. now intros [? ?].
  - unfold MessageImprover.improveWith, getProperty.
    rewrite new_toString. reflexivity.
Qed.

(** C9 (the code at the failing input).  ["toString"] is not registered
    in a fresh registry, yet [setActive("toString")] returns [true] and
    makes it the active name. *)
Theorem setActive_inherited_toString :
  ("toString" ∉ MessageImprover.list new)
  /\ MessageImprover.setActive "toString" new =
     (true, {| MessageImprover.improvers := MessageImprover.improvers new;
               MessageImprover.activeImprover := "toString" |}).
Proof.
  split.
  - rewrite elem_of_list_lookup_improvers, new_toString. now intros [? ?].
  - unfold MessageImprover.setActive, getProperty.
    rewrite new_toString. reflexivity.
Qed.

(** C5 (the code at the failing input).  One call of [setActive] on a
    fresh registry reaches a state whose active name is not among the
    registered names. *)
Theorem reachable_active_name_without_entry :
  let this := (MessageImprover.setActive "toString" new).2 in
  Reachable new this
  /\ MessageImprover.getActive this = "toString"
  /\ MessageImprover.getActive this ∉ MessageImprover.list this.
Proof.
  cbv zeta. split; [apply reach_setActive, reach_initial|].
  assert (Hset : MessageImprover.setActive "toString" new =
                 (true, {| MessageImprover.improvers := MessageImprover.improvers new;
                           MessageImprover.activeImprover := "toString" |})).
  { unfold MessageImprover.setActive, getProperty. now rewrite new_toString. }
  rewrite Hset. split; [reflexivity|].
  change (MessageImprover.getActive _) with "toString".
  rewrite elem_of_list_lookup_improvers.
  change (MessageImprover.improvers _) with (MessageImprover.improvers new).
  rewrite new_toString. now intros [? ?].
Qed.

End Registry.

(** ** The conversation store *)

Lemma lookupOrCreate_present message w conversation :
  NANDA.conversations (NANDA.nanda w) !! message_conversationId message
    = Some conversation ->
  NANDA.lookupOrCreate message w = (Normal conversation, w).
Proof.
  intros H. unfold NANDA.lookupOrCreate, bind, gets. now rewrite H.
Qed.

Lemma lookupOrCreate_absent message w :
  NANDA.conversations (NANDA.nanda w) !! message_conversationId message = None ->
  let k := NANDA.reads (NANDA.clock w) in
  let created :=
    {| conversation_id := message_conversationId message;
       messages := [];
       createdAt := NANDA.readings (NANDA.clock w) k;
       updatedAt := NANDA.readings (NANDA.clock w) (S k) |} in
  NANDA.lookupOrCreate message w =
  (Normal created,
   {| NANDA.nanda :=
        NANDA.setConversation (message_conversationId message) created (NANDA.nanda w);
      NANDA.messageImprover := NANDA.messageImprover w;
      NANDA.clock := {| NANDA.readings := NANDA.readings (NANDA.clock w);
                        NANDA.reads := S (S k) |} |}).
Proof.
  intros H. unfold NANDA.lookupOrCreate, bind, gets. now rewrite H.
Qed.

(** What [storeMessage] leaves behind, given the conversation that its
    first half found or made and the world after that half. *)
Lemma storeMessage_after message w conversation w0 :
  NANDA.lookupOrCreate message w = (Normal conversation, w0) ->
  NANDA.storeMessage message w =
  (Normal tt,
   {| NANDA.nanda :=
        NANDA.setConversation (message_conversationId message)
          {| conversation_id := conversation_id conversation;
             messages := messages conversation ++ [message];
             createdAt := createdAt conversation;
             updatedAt := NANDA.readings (NANDA.clock w0) (NANDA.reads (NANDA.clock w0)) |}
          (NANDA.nanda w0);
      NANDA.messageImprover := NANDA.messageImprover w0;
      NANDA.clock := {| NANDA.readings := NANDA.readings (NANDA.clock w0);
                        NANDA.reads := S (NANDA.reads (NANDA.clock w0)) |} |}).
Proof.
  intros H. unfold NANDA.storeMessage, bind. rewrite H.
  unfold modify, NANDA.newDate, NANDA.withNanda, NANDA.setConversation. simpl.
  now rewrite insert_insert_eq.
Qed.

(** [storeMessage] always returns; it touches neither the counter nor the
    registry of improvers. *)
Lemma storeMessage_returns message w :
  exists w',
    NANDA.storeMessage message w = (Normal tt, w')
    /\ NANDA.messageCount (NANDA.nanda w') = NANDA.messageCount (NANDA.nanda w)
    /\ NANDA.messageImprover w' = NANDA.messageImprover w.
Proof.
  destruct (NANDA.conversations (NANDA.nanda w) !! message_conversationId message)
    as [c|] eqn:Hc.
  - eexists. split; [apply storeMessage_after, (lookupOrCreate_present _ _ _ Hc)|].
    now split.
  - eexists. split; [apply storeMessage_after, (lookupOrCreate_absent _ _ Hc)|].
    now split.
Qed.

(** C8 (as amended).  For a message whose [conversationId] is unknown,
    appending first makes a conversation with an empty message list whose
    [createdAt] and [updatedAt] are the next two readings of the clock, and
    enters it in the store; appending two messages with the same
    [conversationId] leaves a conversation whose messages are the two in
    arrival order; every append sets [updatedAt] to a fresh reading.  All
    of this holds for every clock; when the clock does not run backwards,
    [updatedAt >= createdAt] after each append. *)
Theorem storeMessage_creates_then_appends w m1 m2 :
  let id := message_conversationId m1 in
  let at_ := NANDA.readings (NANDA.clock w) in
  let k := NANDA.reads (NANDA.clock w) in
  NANDA.conversations (NANDA.nanda w) !! id = None ->
  message_conversationId m2 = id ->
  (exists w0,
     NANDA.lookupOrCreate m1 w =
       (Normal {| conversation_id := id; messages := [];
                  createdAt := at_ k; updatedAt := at_ (k + 1) |}, w0)
     /\ NANDA.conversations (NANDA.nanda w0) !! id =
        Some {| conversation_id := id; messages := [];
                createdAt := at_ k; updatedAt := at_ (k + 1) |})
  /\ (exists w1 w2,
        NANDA.storeMessage m1 w = (Normal tt, w1)
        /\ NANDA.storeMessage m2 w1 = (Normal tt, w2)
        /\ NANDA.conversations (NANDA.nanda w1) !! id =
           Some {| conversation_id := id; messages := [m1];
                   createdAt := at_ k; updatedAt := at_ (k + 2) |}
        /\ NANDA.conversations (NANDA.nanda w2) !! id =
           Some {| conversation_id := id; messages := [m1; m2];
                   createdAt := at_ k; updatedAt := at_ (k + 3) |})
  /\ (Monotone (NANDA.clock w) ->
      (at_ k <= at_ (k + 2)%nat)%Z /\ (at_ k <= at_ (k + 3)%nat)%Z).
Proof.
  intros id at_ k Hnone Hid.
  pose proof (lookupOrCreate_absent m1 w Hnone) as Hcreate. cbv zeta in Hcreate.
  fold id at_ k in Hcreate.
  replace (k + 1) with (S k) by lia.
  replace (k + 2) with (S (S k)) by lia.
  replace (k + 3) with (S (S (S k))) by lia.
  split; [|split].
  - eexists. split; [exact Hcreate|]. simpl. apply lookup_insert_eq.
  - pose proof (storeMessage_after m1 w _ _ Hcreate) as Hfirst. simpl in Hfirst.
    fold id at_ k in Hfirst.
    match type of Hfirst with _ = (_, ?w1) =>
      assert (Hentry : NANDA.conversations (NANDA.nanda w1)
                         !! message_conversationId m2 =
                       Some {| conversation_id := id; messages := [m1];
                               createdAt := at_ k; updatedAt := at_ (S (S k)) |})
        by (rewrite Hid; simpl; rewrite insert_insert_eq; apply lookup_insert_eq);
      pose proof (storeMessage_after m2 w1 _ _ (lookupOrCreate_present _ _ _ Hentry))
        as Hsecond
    end.
    simpl in Hsecond. fold id at_ k in Hsecond.
    do 2 eexists. split; [exact Hfirst|]. split; [exact Hsecond|]. split.
    + simpl. rewrite insert_insert_eq. apply lookup_insert_eq.
    + simpl. rewrite Hid, !insert_insert_eq. apply lookup_insert_eq.
  - intros Hmono. split; apply Hmono; lia.
Qed.

(** ** [processMessage] *)

Section Orchestrator.

Variable typeErrorMessage : ObjectPrototypeMember -> string.

(** C4.  Every call of [processMessage] leaves the counter exactly one
    higher, whatever the options say and whatever becomes of the
    improver: found or not, returning or throwing, or skipped. *)
Theorem processMessage_counts_once message options ρ w :
  NANDA.messageCount
    (NANDA.nanda (NANDA.processMessage typeErrorMessage message options ρ w).2)
  = NANDA.messageCount (NANDA.nanda w) + 1.
Proof.
  unfold NANDA.processMessage, tryCatchM, bind at 1, modify at 1.
  destruct (storeMessage_returns message (NANDA.withNanda NANDA.incrementMessageCount w))
    as (w1 & Hstore & Hcount & Hregistry).
  unfold bind at 1. rewrite Hstore.
  destruct (NANDA.improvementEnabled options).
  - unfold bind, gets, ret, lift, throw.
    destruct (MessageImprover.improveWith _ _ _ _ _ _) as [result|error];
      [exact Hcount|].
    destruct (interpolateThrown error); exact Hcount.
  - exact Hcount.
Qed.

End Orchestrator.

(** ** Registration with the directory and [start] *)

(** [register] returns a boolean for every outcome of the request: [true]
    for a response with status 200 and [false] otherwise. *)
Lemma register_returns exchange client :
  exists registered client',
    RegistryClient.register exchange client = (Normal registered, client')
    /\ (registered = true <->
        exists response,
          exchange = RegistryClient.Responded response /\ status response = 200%Z).
Proof.
  unfold RegistryClient.register, tryCatchM, bind, lift, ret, modify.
  destruct exchange as [response|code message]; simpl.
  - unfold RegistryClient.validateStatus.
    destruct (Z.ltb_spec (status response) 500) as [Hlt|Hge]; simpl.
    + destruct (Z.eqb_spec (status response) 200) as [H200|Hn200]; simpl.
      * do 2 eexists. split; [reflexivity|]. split; eauto.
      * unfold RegistryClient.interpolate.
        destruct (coerce (data response)); simpl;
          (do 2 eexists; split; [reflexivity|]);
          (split; [discriminate|]); intros (r & [= <-] & ?); contradiction.
    + destruct (Z.eqb_spec (status response) 400) as [H400|_]; [lia|]. simpl.
      do 2 eexists. split; [reflexivity|].
      split; [discriminate|]. intros (r & [= <-] & ?). lia.
  - destruct (RegistryClient.codeIs code "ECONNREFUSED"
              || RegistryClient.codeIs code "ENOTFOUND"); simpl;
      (do 2 eexists; split; [reflexivity|]);
      (split; [discriminate|]); intros (r & [=] & _).
Qed.

(** C6.  Whatever becomes of the registration request, [register] catches
    it and returns a boolean; when the bridge and the API server have
    started, [start] therefore completes and the agent is running. *)
Theorem registration_failure_does_not_abort_start exchange :
  (forall client, exists registered client',
      RegistryClient.register exchange client = (Normal registered, client'))
  /\ (forall this, exists this',
        NANDA.start (Normal tt) exchange this = (Normal tt, this')
        /\ NANDA.isRunning this' = true).
Proof.
  split.
  - intros client. destruct (register_returns exchange client) as (b & c' & H & _).
    eauto.
  - intros this. unfold NANDA.start, tryCatchM, bind at 1.
    unfold NANDA.onAgentBridge at 1. simpl.
    unfold bind at 1. unfold NANDA.onApiServer at 1. simpl.
    unfold bind at 1. unfold NANDA.onRegistryClient at 1. simpl.
    destruct (register_returns exchange (NANDA.registryClient this))
      as (b & c' & H & _).
    rewrite H. simpl. eexists. split; reflexivity.
Qed.

(** ** Closed instances *)

Lemma asciiToUpperCase_keeps_punctuation : KeepsPunctuation Js.asciiToUpperCase.
Proof. intros [[] [] [] [] [] [] [] []]; reflexivity. Qed.

Lemma tickingClock_monotone : Monotone tickingClock.
Proof. intros i j Hij. simpl. lia. Qed.

Lemma sampleRegistry_ghost :
  MessageImprover.improvers sampleRegistry !! "ghost" = None.
Proof. unfold sampleRegistry. rewrite new_improvers. now simplify_map_eq. Qed.

(** C1, the claim as stated, at the name ["ghost"] on a fresh registry:
    [remove] returns [true] although no entry of that name existed. *)
Lemma remove_unknown_name_reports_true :
  "ghost" <> "default"
  /\ ~ ((MessageImprover.remove "ghost" sampleRegistry).1 = true <->
        is_Some (MessageImprover.improvers sampleRegistry !! "ghost")).
Proof.
  split; [discriminate|].
  intros [Hexisted _]. specialize (Hexisted eq_refl).
  rewrite sampleRegistry_ghost in Hexisted. now destruct Hexisted.
Qed.

(** [remove] on a fresh registry, at ["professional"]. *)
Lemma remove_protects_default_and_deletes_witness :
  "default" ∈ MessageImprover.list sampleRegistry
  /\ "professional" <> "default"
  /\ MessageImprover.remove "default" sampleRegistry = (false, sampleRegistry)
  /\ "default" ∈ MessageImprover.list
                   (MessageImprover.remove "professional" sampleRegistry).2
  /\ (MessageImprover.remove "professional" sampleRegistry).1 = true
  /\ ("professional" ∉ MessageImprover.list
                         (MessageImprover.remove "professional" sampleRegistry).2).
Proof.
  assert (Hin : "default" ∈ MessageImprover.list sampleRegistry).
  { apply elem_of_list_lookup_improvers. unfold sampleRegistry.
    rewrite new_default. eauto. }
  assert (Hne : "professional" <> "default") by discriminate.
  destruct (remove_protects_default_and_deletes sampleRegistry "professional")
    as (Hdefault & Hkeeps & Hother).
  destruct (Hother Hne) as (Htrue & Hgone & _).
  split; [exact Hin|]. split; [exact Hne|]. split; [exact Hdefault|].
  split; [exact (Hkeeps Hin)|]. split; [exact Htrue | exact Hgone].
Defined.

(** C2, the claim as stated, at an improver that runs [throw new Error()]:
    the result carries an empty [metadata.error]. *)
Lemma thrown_error_without_message_leaves_error_empty :
  let this := MessageImprover.register "boom" throwsEmptyError sampleRegistry in
  MessageImprover.improvers this !! "boom" = Some throwsEmptyError
  /\ throwsEmptyError "hi" None 0 = Abrupt (ErrorInstance "")
  /\ ~ (exists result error,
          MessageImprover.improveWith sampleTypeErrorMessage "boom" "hi" None 0 this
            = Normal result
          /\ metadata result = ErrorMetadata error
          /\ error <> "").
Proof.
  cbv zeta. split; [|split].
  - simpl. apply lookup_insert_eq.
  - reflexivity.
  - intros (result & error & Hresult & Hmeta & Hne).
    unfold MessageImprover.improveWith in Hresult.
    erewrite getProperty_own in Hresult by (simpl; apply lookup_insert_eq).
    simpl in Hresult. injection Hresult as <-. simpl in Hmeta.
    injection Hmeta as <-. now apply Hne.
Qed.

(** [improveWith] at an improver that runs [throw new Error('kaput')]. *)
Lemma throwing_improver_is_contained_witness :
  let this := MessageImprover.register "boom" throwsKaput sampleRegistry in
  MessageImprover.improvers this !! "boom" = Some throwsKaput
  /\ throwsKaput "hi" None 0 = Abrupt (ErrorInstance "kaput")
  /\ ErrorInstance "kaput" <> NonError false
  /\ MessageImprover.improveWith sampleTypeErrorMessage "boom" "hi" None 0 this =
     Normal {| originalMessage := "hi";
               improvedMessage := JsString "hi";
               improvementType := NoImprovement;
               metadata := ErrorMetadata "kaput" |}.
Proof.
  cbv zeta.
  assert (Hreg : MessageImprover.improvers
                   (MessageImprover.register "boom" throwsKaput sampleRegistry)
                   !! "boom" = Some throwsKaput)
    by (simpl; apply lookup_insert_eq).
  assert (Hconv : ErrorInstance "kaput" <> NonError false) by discriminate.
  split; [exact Hreg|]. split; [reflexivity|]. split; [exact Hconv|].
  exact (proj1 (throwing_improver_is_contained sampleTypeErrorMessage
                  _ "boom" throwsKaput "hi" None 0 (ErrorInstance "kaput")
                  Hreg eq_refl Hconv)).
Defined.

(** C7, the claim as stated, at the empty input: nothing is appended to a
    trimmed text that does not end in punctuation. *)
Lemma default_improver_leaves_blank_input_without_period :
  Js.endsWithPunctuation (Js.trim "") = false
  /\ MessageImprover.defaultImprover Js.asciiToUpperCase "" None 0 = Normal ""
  /\ MessageImprover.defaultImprover Js.asciiToUpperCase "" None 0 <>
     Normal (Js.asciiToUpperCase (Js.charAt 0 (Js.trim ""))
             +:+ Js.slice 1 (Js.trim "")
             +:+ (if Js.endsWithPunctuation (Js.trim "") then "" else ".")).
Proof. split; [reflexivity|]. split; [reflexivity|]. discriminate. Qed.

(** ["default"] at ["  hi there "] and at ["hi there"], with
    [toUpperCase] on ASCII. *)
Lemma default_improver_capitalizes_and_punctuates_witness :
  KeepsPunctuation Js.asciiToUpperCase
  /\ Js.trim "  hi there " <> ""
  /\ Js.asciiToUpperCase "h" = "H"
  /\ MessageImprover.defaultImprover Js.asciiToUpperCase "  hi there " None 0
     = Normal "Hi there."
  /\ MessageImprover.defaultImprover Js.asciiToUpperCase "hi there" None 0
     = Normal "Hi there.".
Proof.
  assert (Hne : Js.trim "  hi there " <> "") by discriminate.
  destruct (default_improver_capitalizes_and_punctuates
              Js.asciiToUpperCase "  hi there " None 0
              asciiToUpperCase_keeps_punctuation Hne) as [Hresult Hexample].
  split; [exact asciiToUpperCase_keeps_punctuation|].
  split; [exact Hne|]. split; [reflexivity|].
  split; [exact Hresult | exact (Hexample eq_refl)].
Defined.

(** The seed improvers at two spaces, a tab and a space. *)
Lemma seed_improvers_on_blank_input_witness :
  allWhiteSpace "  	 " = true
  /\ MessageImprover.defaultImprover Js.asciiToUpperCase "  	 " None 0 = Normal ""
  /\ MessageImprover.professionalImprover Js.asciiToUpperCase "  	 " None 0 = Normal ""
  /\ MessageImprover.creativeImprover Js.asciiToUpperCase Js.asciiToLowerCase
       "  	 " None 0 = Normal "".
Proof.
  split; [reflexivity|].
  exact (seed_improvers_on_blank_input Js.asciiToUpperCase Js.asciiToLowerCase
           "  	 " None 0 eq_refl).
Defined.

(** C8, the claim as stated: with a clock that advances between the two
    readings taken at creation, [createdAt] and [updatedAt] of the new
    conversation differ; with a clock that is set back, two appends leave
    [updatedAt] before [createdAt]. *)
Lemma timestamps_follow_the_clock_readings :
  (exists conversation w',
     NANDA.lookupOrCreate (sampleMessage "m1" "hello") sampleWorld
       = (Normal conversation, w')
     /\ createdAt conversation = 0%Z
     /\ updatedAt conversation = 1%Z)
  /\ (let w1 := (NANDA.storeMessage (sampleMessage "m1" "hello") backwardsWorld).2 in
      let w2 := (NANDA.storeMessage (sampleMessage "m2" "again") w1).2 in
      exists conversation,
        NANDA.conversations (NANDA.nanda w2) !! "c1" = Some conversation
        /\ createdAt conversation = 10%Z
        /\ updatedAt conversation = 7%Z).
Proof.
  split.
  - do 2 eexists. split; [apply lookupOrCreate_absent; reflexivity|].
    split; reflexivity.
  - cbv zeta. eexists. split; [vm_compute; reflexivity|]. split; reflexivity.
Qed.

(** Two appends to the conversation ["c1"] of an empty store, with a
    clock that ticks at every reading. *)
Lemma storeMessage_creates_then_appends_witness :
  NANDA.conversations (NANDA.nanda sampleWorld) !! "c1" = None
  /\ Monotone tickingClock
  /\ (exists w1 w2,
        NANDA.storeMessage (sampleMessage "m1" "hello") sampleWorld = (Normal tt, w1)
        /\ NANDA.storeMessage (sampleMessage "m2" "again") w1 = (Normal tt, w2)
        /\ NANDA.conversations (NANDA.nanda w2) !! "c1" =
           Some {| conversation_id := "c1";
                   messages := [sampleMessage "m1" "hello"; sampleMessage "m2" "again"];
                   createdAt := 0%Z; updatedAt := 3%Z |})
  /\ (NANDA.readings tickingClock 0 <= NANDA.readings tickingClock 3)%Z.
Proof.
  split; [reflexivity|]. split; [exact tickingClock_monotone|].
  destruct (storeMessage_creates_then_appends sampleWorld
              (sampleMessage "m1" "hello") (sampleMessage "m2" "again")
              eq_refl eq_refl)
    as (_ & (w1 & w2 & H1 & H2 & _ & Hentry) & Hordered).
  split.
  - exists w1, w2. split; [exact H1|]. split; [exact H2 | exact Hentry].
  - exact (proj2 (Hordered tickingClock_monotone)).
Defined.

(** ** More on the registry of improvers *)

Lemma register_improvers name improver this :
  name <> "__proto__" ->
  MessageImprover.improvers (MessageImprover.register name improver this)
  = <[name := improver]> (MessageImprover.improvers this).
Proof.
  intros H. unfold MessageImprover.register. simpl.
  now destruct (String.eqb_spec name "__proto__").
Qed.

Lemma assoc_is_Some {A} name (l : list (string * A)) :
  is_Some (assoc name l) <-> name ∈ l.*1.
Proof.
  induction l as [|[k v] l IH]; simpl.
  - split; [now intros [? ?] | intros H; inversion H].
  - destruct (String.eqb_spec k name) as [->|Hne].
    + split; [intros _; apply list_elem_of_here | eauto].
    + rewrite IH. split; [apply list_elem_of_further|].
      intros H. inversion H; subst; [congruence | assumption].
Qed.

Section RegistryUse.

Variable typeErrorMessage : ObjectPrototypeMember -> string.

Local Abbreviation improve := (MessageImprover.improve typeErrorMessage).
Local Abbreviation improveWith := (MessageImprover.improveWith typeErrorMessage).

(** What a call that finds a registered improver which returns [s]
    answers. *)
Lemma improveWith_registered name improver message context ρ this s :
  MessageImprover.improvers this !! name = Some improver ->
  improver message context ρ = Normal s ->
  improveWith name message context ρ this =
  Normal {| originalMessage := message;
            improvedMessage := JsString s;
            improvementType :=
              if String.eqb name "default" then DefaultImprovement
              else CustomImprovement;
            metadata := ImproverMetadata name context |}.
Proof.
  intros Hreg Hret. unfold MessageImprover.improveWith.
  rewrite (getProperty_own _ _ _ Hreg).
  unfold MessageImprover.invoke, tryCatch, bindCompletion. now rewrite Hret.
Qed.

(** X1.  After [register(name, improver)], for every name but
    [__proto__], [improveWith(name, message)] runs that improver, whatever
    was registered or inherited under the name before; when it returns [s]
    the result carries [s], and its type is ["default"] exactly for the
    name ["default"], ["custom"] for every other name. *)
Theorem register_then_improveWith name improver message context ρ this s :
  name <> "__proto__" ->
  improver message context ρ = Normal s ->
  improveWith name message context ρ (MessageImprover.register name improver this) =
  Normal {| originalMessage := message;
            improvedMessage := JsString s;
            improvementType :=
              if String.eqb name "default" then DefaultImprovement
              else CustomImprovement;
            metadata := ImproverMetadata name context |}.
Proof.
  intros Hname Hret. apply improveWith_registered with improver; [|exact Hret].
  rewrite register_improvers by assumption. apply lookup_insert_eq.
Qed.

(** X2.  Registering twice under one name keeps the last improver only;
    [register] never changes the active name nor the entry of any other
    name. *)
Theorem register_last_write_wins name first second this :
  MessageImprover.register name second (MessageImprover.register name first this)
  = MessageImprover.register name second this
  /\ MessageImprover.getActive (MessageImprover.register name first this)
     = MessageImprover.getActive this
  /\ forall other, other <> name ->
       MessageImprover.improvers (MessageImprover.register name first this) !! other
       = MessageImprover.improvers this !! other.
Proof.
  split; [|split].
  - unfold MessageImprover.register. simpl.
    destruct (String.eqb name "__proto__"); [reflexivity|].
    now rewrite insert_insert_eq.
  - reflexivity.
  - intros other Hne. unfold MessageImprover.register. simpl.
    destruct (String.eqb name "__proto__"); [reflexivity|].
    now rewrite lookup_insert_ne.
Qed.

(** X3.  [list()] after [register(name, improver)] holds the names listed
    before and [name], each once; but a registration under the name
    [__proto__] adds nothing to [list()]. *)
Theorem list_after_register name improver this x :
  NoDup (MessageImprover.list (MessageImprover.register name improver this))
  /\ (name <> "__proto__" ->
      (x ∈ MessageImprover.list (MessageImprover.register name improver this)
       <-> x = name \/ x ∈ MessageImprover.list this))
  /\ (x ∈ MessageImprover.list (MessageImprover.register "__proto__" improver this)
      <-> x ∈ MessageImprover.list this).
Proof.
  split; [unfold MessageImprover.list; apply NoDup_elements|]. split.
  - intros Hname. rewrite !elem_of_list_lookup_improvers.
    rewrite register_improvers by assumption.
    destruct (decide (x = name)) as [->|Hne].
    + rewrite lookup_insert_eq. split; eauto.
    + rewrite lookup_insert_ne by congruence. split; [auto|].
      intros [?|?]; [contradiction | assumption].
  - now rewrite !elem_of_list_lookup_improvers.
Qed.

(** X4.  [exists(name)] uses [in]: it is true for every listed name, and
    for an unlisted name exactly when the name is one of the twelve
    property names of [Object.prototype]. *)
Theorem exists_listed_or_inherited name this :
  MessageImprover.exists_ name this = true <->
  name ∈ MessageImprover.list this
  \/ name ∈ [ "constructor"; "__defineGetter__"; "__defineSetter__";
              "hasOwnProperty"; "__lookupGetter__"; "__lookupSetter__";
              "isPrototypeOf"; "propertyIsEnumerable"; "toString"; "valueOf";
              "__proto__"; "toLocaleString" ].
Proof.
  change [ "constructor"; "__defineGetter__"; "__defineSetter__";
           "hasOwnProperty"; "__lookupGetter__"; "__lookupSetter__";
           "isPrototypeOf"; "propertyIsEnumerable"; "toString"; "valueOf";
           "__proto__"; "toLocaleString" ]
    with (objectPrototypeMembers.*1).
  rewrite <- assoc_is_Some, elem_of_list_lookup_improvers.
  unfold MessageImprover.exists_, getProperty.
  fold (objectPrototypeMember name).
  destruct (MessageImprover.improvers this !! name) as [f|].
  - split; eauto.
  - destruct (objectPrototypeMember name) as [m|]; simpl.
    + split; eauto.
    + split; [discriminate|]. intros [[? ?]|[? ?]]; discriminate.
Qed.

(** [improve(message)] answers what [improveWith(getActive(), message)]
    answers. *)
Lemma improve_is_improveWith_active message context ρ this :
  improve message context ρ this
  = improveWith (MessageImprover.getActive this) message context ρ this.
Proof. reflexivity. Qed.

(** X5.  After [setActive(name)] on a registered name, [improve] runs the
    improver registered under that name. *)
Theorem setActive_then_improve name improver message context ρ this s :
  MessageImprover.improvers this !! name = Some improver ->
  improver message context ρ = Normal s ->
  (MessageImprover.setActive name this).1 = true
  /\ improve message context ρ (MessageImprover.setActive name this).2 =
     Normal {| originalMessage := message;
               improvedMessage := JsString s;
               improvementType :=
                 if String.eqb name "default" then DefaultImprovement
                 else CustomImprovement;
               metadata := ImproverMetadata name context |}.
Proof.
  intros Hreg Hret. rewrite (setActive_registered _ _ _ Hreg). split; [reflexivity|].
  rewrite improve_is_improveWith_active. simpl.
  now apply improveWith_registered with improver.
Qed.

(** X6.  After [remove(name)], for a name other than ["default"] that is
    not a property name of [Object.prototype], the name is unknown again:
    it is not listed, [exists] is false, [setActive] refuses it and
    [improveWith] answers "Improver not found". *)
Theorem remove_then_unknown name message context ρ this :
  name <> "default" ->
  objectPrototypeMember name = None ->
  let after := (MessageImprover.remove name this).2 in
  (name ∉ MessageImprover.list after)
  /\ MessageImprover.exists_ name after = false
  /\ MessageImprover.setActive name after = (false, after)
  /\ improveWith name message context ρ after
     = Normal (MessageImprover.notFound message).
Proof.
  intros Hne Hproto after.
  assert (Hgone : MessageImprover.improvers after !! name = None).
  { unfold after. rewrite (remove_other _ _ Hne). simpl. apply lookup_delete_eq. }
  split; [|split; [|split]].
  - rewrite elem_of_list_lookup_improvers, Hgone. now intros [? ?].
  - unfold MessageImprover.exists_.
    now rewrite (proj2 (getProperty_None _ _) (conj Hgone Hproto)).
  - now apply setActive_unknown.
  - now apply improveWith_unknown.
Qed.

(** X7.  Every result of [improveWith] repeats the input as
    [originalMessage]; a result of type ["none"] also has it as
    [improvedMessage] and carries [metadata.error]; a result of type
    ["default"] is only given for the name ["default"]; and every other
    result names the improver and the context in its metadata. *)
Theorem improveWith_result_shape name message context ρ this result :
  improveWith name message context ρ this = Normal result ->
  originalMessage result = message
  /\ (improvementType result = NoImprovement ->
      improvedMessage result = JsString message
      /\ exists error, metadata result = ErrorMetadata error)
  /\ (improvementType result = DefaultImprovement -> name = "default")
  /\ (improvementType result <> NoImprovement ->
      metadata result = ImproverMetadata name context).
Proof.
  unfold MessageImprover.improveWith.
  destruct (getProperty _ name) as [improver|].
  - destruct (MessageImprover.invoke typeErrorMessage improver message context ρ)
      as [value|error]; simpl.
    + intros [= <-]. simpl. split; [reflexivity|].
      destruct (String.eqb_spec name "default") as [->|Hne];
        (split; [discriminate|]); (split; [|reflexivity]);
        [reflexivity | discriminate].
    + destruct (interpolateThrown error); simpl; [|discriminate].
      intros [= <-]. simpl. split; [reflexivity|]. split; [eauto|].
      split; [discriminate | congruence].
  - intros [= <-]. simpl. split; [reflexivity|]. split; [eauto|].
    split; [discriminate | congruence].
Qed.

End RegistryUse.

(** X8.  In a state reached through [register], [remove] and [setActive],
    removing the active improver (not ["default"]) leaves ["default"]
    listed and active, and [improve] then runs whatever improver is
    registered under ["default"]. *)
Theorem remove_active_falls_back_to_default
    toUpperCase toLowerCase typeErrorMessage name message context ρ this :
  Reachable (MessageImprover.new toUpperCase toLowerCase) this ->
  name <> "default" ->
  MessageImprover.getActive this = name ->
  let after := (MessageImprover.remove name this).2 in
  "default" ∈ MessageImprover.list after
  /\ MessageImprover.getActive after = "default"
  /\ exists improver,
       MessageImprover.improvers after !! "default" = Some improver
       /\ forall s, improver message context ρ = Normal s ->
            MessageImprover.improve typeErrorMessage message context ρ after =
            Normal {| originalMessage := message;
                      improvedMessage := JsString s;
                      improvementType := DefaultImprovement;
                      metadata := ImproverMetadata "default" context |}.
Proof.
  intros Hreach Hne Hact after.
  destruct (reachable_invariant _ _ _ Hreach) as [Hdefault _].
  pose proof (remove_keeps_default name this Hdefault) as Hkept. fold after in Hkept.
  pose proof (remove_active_resets name this Hne Hact) as Hreset. fold after in Hreset.
  split; [now apply elem_of_list_lookup_improvers|]. split; [exact Hreset|].
  destruct Hkept as [improver Himprover]. exists improver. split; [exact Himprover|].
  intros s Hs. rewrite improve_is_improveWith_active, Hreset.
  exact (improveWith_registered typeErrorMessage "default" improver
           message context ρ after s Himprover Hs).
Qed.

(** ** More on the seed improvers *)

Lemma endsWithPunctuation_period (s : string) :
  Js.endsWithPunctuation (s +:+ ".") = true.
Proof. unfold Js.endsWithPunctuation. now rewrite lastChar_append. Qed.

Lemma punctuated_ends (s : string) :
  Js.endsWithPunctuation
    (if negb (Js.endsWithPunctuation s) then s +:+ "." else s) = true.
Proof.
  destruct (Js.endsWithPunctuation s) eqn:H; simpl;
    [exact H | apply endsWithPunctuation_period].
Qed.

Lemma length_append (a b : string) :
  String.length (a +:+ b) = String.length a + String.length b.
Proof. induction a as [|c a IH]; [reflexivity | simpl; now rewrite IH]. Qed.

Lemma length_replaceFinalPeriod (s : string) :
  String.length (Js.replaceFinalPeriod s) = String.length s.
Proof.
  induction s as [|c r IH]; [reflexivity|].
  destruct r as [|d r].
  - simpl. now destruct (Ascii.eqb c ".").
  - change (Js.replaceFinalPeriod (String c (String d r)))
      with (String c (Js.replaceFinalPeriod (String d r))).
    change (S (String.length (Js.replaceFinalPeriod (String d r)))
            = S (String.length (String d r))).
    now rewrite IH.
Qed.

(** [replace(/\.$/, '!')] leaves a prefix that does not end in a period
    alone. *)
Lemma replaceFinalPeriod_append (p x : string) :
  Js.lastChar p <> Some "."%char ->
  Js.replaceFinalPeriod (p +:+ x) = p +:+ Js.replaceFinalPeriod x.
Proof.
  induction p as [|c p IH]; intros Hlast; [reflexivity|].
  destruct p as [|e p].
  - destruct x as [|d r]; [|reflexivity].
    simpl. destruct (Ascii.eqb_spec c "."); [|reflexivity].
    subst c. now contradiction Hlast.
  - change (Js.replaceFinalPeriod (String c (String e p) +:+ x))
      with (String c (Js.replaceFinalPeriod (String e p +:+ x))).
    rewrite IH; [reflexivity | exact Hlast].
Qed.

Section Seeds.

Variables toUpperCase toLowerCase : string -> string.

(** X9.  Each seed improver returns the empty string when the trimmed
    input is empty and otherwise a text that ends in [.], [!] or [?]. *)
Theorem seed_improvers_end_in_punctuation message context ρ improver :
  improver ∈ [ MessageImprover.defaultImprover toUpperCase;
               MessageImprover.professionalImprover toUpperCase;
               MessageImprover.creativeImprover toUpperCase toLowerCase ] ->
  exists s,
    improver message context ρ = Normal s
    /\ (Js.trim message = "" -> s = "")
    /\ (Js.trim message <> "" -> Js.endsWithPunctuation s = true).
Proof.
  intros Hin.
  assert (Hblank : forall s : string, (String.length s =? 0) = false -> s <> "")
    by (intros [|] ?; [discriminate | congruence]).
  apply elem_of_cons in Hin as [->|Hin];
    [|apply elem_of_cons in Hin as [->|Hin];
      [|apply elem_of_cons in Hin as [->|Hin]; [|inversion Hin]]].
  - unfold MessageImprover.defaultImprover.
    destruct (String.length (Js.trim message) =? 0) eqn:Hlen.
    + apply length_0_empty in Hlen. rewrite Hlen. eexists. split; [reflexivity|].
      split; [reflexivity | congruence].
    + eexists. split; [reflexivity|]. split; [now intros ?%Hblank|].
      intros _. apply punctuated_ends.
  - unfold MessageImprover.professionalImprover.
    destruct (String.length (Js.trim message) =? 0) eqn:Hlen.
    + apply length_0_empty in Hlen. rewrite Hlen. eexists. split; [reflexivity|].
      split; [reflexivity | congruence].
    + eexists. split; [reflexivity|]. split; [now intros ?%Hblank|].
      intros _. apply punctuated_ends.
  - unfold MessageImprover.creativeImprover.
    destruct (String.length (Js.trim message) =? 0) eqn:Hlen.
    + apply length_0_empty in Hlen. rewrite Hlen. eexists. split; [reflexivity|].
      split; [reflexivity | congruence].
    + eexists. split; [reflexivity|]. split; [now intros ?%Hblank|].
      intros _. apply punctuated_ends.
Qed.

(** X10.  On an input that is not empty once trimmed, ["creative"]
    returns the capitalized text, with its final period turned into [!]
    when the text is an exciting one, and with a period appended when it
    does not end in [.], [!] or [?] then.  One of the five starters is put
    in front of it when the capitalized text is shorter than 100 code
    units and has no colon (the starter counts when the text is searched
    for the exciting words); no starter is added otherwise, and the
    result is then at most one code unit longer than the capitalized
    text. *)
Theorem creative_improver_starter message context ρ :
  let capitalized :=
    toUpperCase (Js.charAt 0 (Js.trim message)) +:+ Js.slice 1 (Js.trim message) in
  let exciting text :=
    Js.includes (toLowerCase text) "amazing"
    || Js.includes (toLowerCase text) "exciting"
    || Js.includes (toLowerCase text) "incredible" in
  let body text :=
    if exciting text then Js.replaceFinalPeriod capitalized else capitalized in
  Js.trim message <> "" ->
  exists s,
    MessageImprover.creativeImprover toUpperCase toLowerCase message context ρ
    = Normal s
    /\ (String.length capitalized < 100 ->
        Js.includes capitalized ":" = false ->
        exists starter,
          starter ∈ MessageImprover.engagingStarters
          /\ s = starter +:+ body (starter +:+ capitalized)
                 +:+ (if Js.endsWithPunctuation
                           (starter +:+ body (starter +:+ capitalized))
                      then "" else "."))
    /\ (100 <= String.length capitalized \/ Js.includes capitalized ":" = true ->
        s = body capitalized
            +:+ (if Js.endsWithPunctuation (body capitalized) then "" else ".")
        /\ String.length s <= String.length capitalized + 1).
Proof.
  intros capitalized exciting body Hne.
  set (starter := nth (ρ mod length MessageImprover.engagingStarters)
                      MessageImprover.engagingStarters "").
  set (started :=
         if (String.length capitalized <? 100) && negb (Js.includes capitalized ":")
         then starter +:+ capitalized else capitalized).
  set (excited :=
         if exciting started then Js.replaceFinalPeriod started else started).
  exists (if negb (Js.endsWithPunctuation excited) then excited +:+ "." else excited).
  split; [|split].
  - unfold MessageImprover.creativeImprover.
    destruct (String.length (Js.trim message) =? 0) eqn:Hlen;
      [now apply length_0_empty in Hlen | reflexivity].
  - intros Hshort Hcolon.
    assert (Hstarted : started = starter +:+ capitalized).
    { unfold started. apply Nat.ltb_lt in Hshort. now rewrite Hshort, Hcolon. }
    assert (Hin : In starter MessageImprover.engagingStarters).
    { apply nth_In. apply Nat.mod_upper_bound. discriminate. }
    assert (Hlast : Js.lastChar starter <> Some "."%char).
    { simpl in Hin. destruct Hin as [H|[H|[H|[H|[H|[]]]]]]; rewrite <- H; discriminate. }
    exists starter. apply list_elem_of_In in Hin. split; [exact Hin|].
    assert (Hexcited : excited = starter +:+ body (starter +:+ capitalized)).
    { unfold excited, body. rewrite Hstarted.
      destruct (exciting (starter +:+ capitalized)); [|reflexivity].
      apply (replaceFinalPeriod_append _ _ Hlast). }
    rewrite Hexcited.
    destruct (Js.endsWithPunctuation (starter +:+ body (starter +:+ capitalized)));
      simpl negb; cbv iota.
    + now rewrite append_empty_r.
    + now rewrite append_assoc.
  - intros Hlong.
    assert (Hstarted : started = capitalized).
    { unfold started. destruct Hlong as [Hlong|Hcolon].
      - apply Nat.ltb_ge in Hlong. now rewrite Hlong.
      - rewrite Hcolon. now rewrite andb_false_r. }
    assert (Hexcited : excited = body capitalized).
    { unfold excited, body. now rewrite Hstarted. }
    assert (Hlength : String.length (body capitalized) = String.length capitalized).
    { unfold body. destruct (exciting capitalized);
        [apply length_replaceFinalPeriod | reflexivity]. }
    rewrite Hexcited.
    destruct (Js.endsWithPunctuation (body capitalized)); simpl negb; cbv iota.
    + split; [now rewrite append_empty_r | lia].
    + split; [reflexivity|]. rewrite length_append, Hlength. simpl. lia.
Qed.

End Seeds.

(** ** More on the conversation store and [processMessage] *)

(** All that [storeMessage] does: one entry of the map is written, the
    clock is read, and nothing else changes. *)
Lemma storeMessage_effect message w :
  let id := message_conversationId message in
  let at_ := NANDA.readings (NANDA.clock w) in
  let k := NANDA.reads (NANDA.clock w) in
  let w' := (NANDA.storeMessage message w).2 in
  (NANDA.storeMessage message w).1 = Normal tt
  /\ NANDA.conversations (NANDA.nanda w') =
     <[id := match NANDA.conversations (NANDA.nanda w) !! id with
             | Some c =>
                 {| conversation_id := conversation_id c;
                    messages := messages c ++ [message];
                    createdAt := createdAt c;
                    updatedAt := at_ k |}
             | None =>
                 {| conversation_id := id;
                    messages := [message];
                    createdAt := at_ k;
                    updatedAt := at_ (S (S k)) |}
             end]> (NANDA.conversations (NANDA.nanda w))
  /\ NANDA.readings (NANDA.clock w') = at_
  /\ NANDA.reads (NANDA.clock w') =
     match NANDA.conversations (NANDA.nanda w) !! id with
     | Some _ => S k
     | None => S (S (S k))
     end
  /\ NANDA.messageCount (NANDA.nanda w') = NANDA.messageCount (NANDA.nanda w)
  /\ NANDA.isRunning (NANDA.nanda w') = NANDA.isRunning (NANDA.nanda w)
  /\ NANDA.registryClient (NANDA.nanda w') = NANDA.registryClient (NANDA.nanda w)
  /\ NANDA.messageImprover w' = NANDA.messageImprover w.
Proof.
  intros id at_ k w'. subst w'.
  destruct (NANDA.conversations (NANDA.nanda w) !! id) as [c|] eqn:Hc.
  - rewrite (storeMessage_after _ _ _ _ (lookupOrCreate_present _ _ _ Hc)). simpl.
    repeat split; auto.
  - rewrite (storeMessage_after _ _ _ _ (lookupOrCreate_absent _ _ Hc)). simpl.
    rewrite insert_insert_eq. repeat split; auto.
Qed.

Lemma storeMessage_messagesOf message w conversationId :
  messagesOf conversationId (NANDA.storeMessage message w).2 =
  messagesOf conversationId w
  ++ (if decide (message_conversationId message = conversationId)
      then [message] else []).
Proof.
  destruct (storeMessage_effect message w) as (_ & Hstore & _).
  unfold messagesOf, NANDA.getConversation. cbv zeta in Hstore. rewrite Hstore.
  destruct (decide (message_conversationId message = conversationId)) as [<-|Hne].
  - rewrite lookup_insert_eq.
    now destruct (NANDA.conversations (NANDA.nanda w) !! message_conversationId message).
  - rewrite lookup_insert_ne by assumption. now rewrite app_nil_r.
Qed.

Section Pipeline.

Variable typeErrorMessage : ObjectPrototypeMember -> string.

Local Abbreviation processMessage := (NANDA.processMessage typeErrorMessage).
Local Abbreviation improveWith := (MessageImprover.improveWith typeErrorMessage).

(** The context object that [processMessage] hands to the improver. *)
Local Abbreviation contextOf message :=
  (Some {| context_conversationId := message_conversationId message;
           context_messageId := message_id message;
           context_role := message_role message |}).

(** The world after [processMessage] is the world after counting and
    storing: neither the improver nor the [catch] clause writes to it. *)
Lemma processMessage_world message options ρ w :
  (processMessage message options ρ w).2 =
  (NANDA.storeMessage message (NANDA.withNanda NANDA.incrementMessageCount w)).2.
Proof.
  unfold NANDA.processMessage, tryCatchM, bind at 1, modify at 1.
  destruct (storeMessage_returns message (NANDA.withNanda NANDA.incrementMessageCount w))
    as (w1 & Hstore & _).
  unfold bind at 1. rewrite Hstore. simpl.
  destruct (NANDA.improvementEnabled options); [|reflexivity].
  unfold bind, gets, ret, lift, throw.
  destruct (MessageImprover.improveWith _ _ _ _ _ _) as [result|error]; [reflexivity|].
  now destruct (interpolateThrown error).
Qed.

(** What [processMessage] answers, read off the registry as it is when
    the call is made. *)
Lemma processMessage_answer message options ρ w :
  (processMessage message options ρ w).1 =
  if NANDA.improvementEnabled options then
    match improveWith (NANDA.resolveImproverName options (NANDA.messageImprover w))
            (NANDA.firstContent message) (contextOf message) ρ
            (NANDA.messageImprover w) with
    | Normal result => Normal result
    | Abrupt error =>
        match interpolateThrown error with
        | Normal _ => Abrupt error
        | Abrupt failure => Abrupt failure
        end
    end
  else
    Normal {| originalMessage := NANDA.firstContent message;
              improvedMessage := JsString (NANDA.firstContent message);
              improvementType := NoImprovement;
              metadata := MessageMetadata (message_id message)
                                          (message_conversationId message) |}.
Proof.
  unfold NANDA.processMessage, tryCatchM, bind at 1, modify at 1.
  destruct (storeMessage_returns message (NANDA.withNanda NANDA.incrementMessageCount w))
    as (w1 & Hstore & _ & Hregistry).
  unfold bind at 1. rewrite Hstore.
  destruct (NANDA.improvementEnabled options); [|reflexivity].
  unfold bind, gets, ret, lift, throw. rewrite Hregistry. simpl.
  destruct (MessageImprover.improveWith _ _ _ _ _ _) as [result|error]; [reflexivity|].
  now destruct (interpolateThrown error).
Qed.

Lemma processMessage_messagesOf message options ρ w conversationId :
  messagesOf conversationId (processMessage message options ρ w).2 =
  messagesOf conversationId w
  ++ (if decide (message_conversationId message = conversationId)
      then [message] else []).
Proof.
  rewrite processMessage_world, storeMessage_messagesOf. reflexivity.
Qed.

(** X11.  When improvement is not switched off, [processMessage] answers
    what [improveWith] answers for the name in [options.improverName], or
    for the active name when there is none, on the text of the first
    content block; the message is then the last one of its conversation
    and the registry is as before. *)
Theorem processMessage_improves_and_stores message options ρ w result :
  NANDA.improvementEnabled options = true ->
  improveWith (NANDA.resolveImproverName options (NANDA.messageImprover w))
    (NANDA.firstContent message) (contextOf message) ρ (NANDA.messageImprover w)
  = Normal result ->
  exists w',
    processMessage message options ρ w = (Normal result, w')
    /\ messagesOf (message_conversationId message) w'
       = messagesOf (message_conversationId message) w ++ [message]
    /\ NANDA.messageImprover w' = NANDA.messageImprover w.
Proof.
  intros Henabled Hresult.
  exists (processMessage message options ρ w).2. split; [|split].
  - pose proof (processMessage_answer message options ρ w) as Hanswer.
    rewrite Henabled, Hresult in Hanswer.
    rewrite <- Hanswer. apply surjective_pairing.
  - rewrite processMessage_messagesOf. now rewrite decide_True.
  - rewrite processMessage_world.
    now destruct (storeMessage_effect message
                    (NANDA.withNanda NANDA.incrementMessageCount w))
      as (_ & _ & _ & _ & _ & _ & _ & ?).
Qed.

(** X12.  With [options.improveMessage === false], [processMessage] asks
    no improver: whatever the registry holds and whatever
    [options.improverName] says, it returns the text of the first content
    block unchanged with type ["none"] and the ids of the message as
    metadata; the message is stored all the same. *)
Theorem processMessage_without_improvement message options ρ w :
  improveMessage options = Some false ->
  exists w',
    processMessage message options ρ w =
      (Normal {| originalMessage := NANDA.firstContent message;
                 improvedMessage := JsString (NANDA.firstContent message);
                 improvementType := NoImprovement;
                 metadata := MessageMetadata (message_id message)
                                             (message_conversationId message) |}, w')
    /\ messagesOf (message_conversationId message) w'
       = messagesOf (message_conversationId message) w ++ [message].
Proof.
  intros Hoff.
  exists (processMessage message options ρ w).2. split.
  - pose proof (processMessage_answer message options ρ w) as Hanswer.
    unfold NANDA.improvementEnabled in Hanswer. rewrite Hoff in Hanswer.
    rewrite <- Hanswer. apply surjective_pairing.
  - rewrite processMessage_messagesOf. now rewrite decide_True.
Qed.

(** X13.  An empty [options.improverName] counts as none: the call
    behaves as it does without the option, on the active improver. *)
Theorem processMessage_empty_improverName message improve ρ w :
  processMessage message {| improveMessage := improve; improverName := Some "" |} ρ w
  = processMessage message {| improveMessage := improve; improverName := None |} ρ w.
Proof.
  apply injective_projections.
  - now rewrite !processMessage_answer.
  - now rewrite !processMessage_world.
Qed.

(** X14.  Of the content of a message [processMessage] reads the first
    block only: two messages that agree on [id], [role], [conversationId]
    and the text of the first block get the same answer, and a message
    without content blocks is answered as the empty text is. *)
Theorem processMessage_reads_first_block_only m1 m2 options ρ w :
  message_id m1 = message_id m2 ->
  message_role m1 = message_role m2 ->
  message_conversationId m1 = message_conversationId m2 ->
  NANDA.firstContent m1 = NANDA.firstContent m2 ->
  (processMessage m1 options ρ w).1 = (processMessage m2 options ρ w).1
  /\ (message_content m1 = [] -> NANDA.firstContent m1 = "").
Proof.
  intros Hid Hrole Hconv Hfirst. split.
  - rewrite !processMessage_answer. now rewrite Hid, Hrole, Hconv, Hfirst.
  - unfold NANDA.firstContent. now intros ->.
Qed.

(** X15.  After any sequence of calls of [processMessage] the counter has
    grown by the number of calls, and each conversation holds the
    messages it held before followed by the processed messages that carry
    its id, in the order of the calls; this does not depend on what the
    improvers did. *)
Theorem processAll_counts_and_keeps_order calls w conversationId :
  NANDA.messageCount (NANDA.nanda (processAll typeErrorMessage calls w))
  = NANDA.messageCount (NANDA.nanda w) + length calls
  /\ messagesOf conversationId (processAll typeErrorMessage calls w)
     = messagesOf conversationId w
       ++ filter (fun m => message_conversationId m = conversationId)
                 (map (fun call : Call => call.1.1) calls).
Proof.
  revert w. induction calls as [|[[message options] ρ] calls IH]; intros w.
  - simpl. split; [lia | now rewrite app_nil_r].
  - change (processAll typeErrorMessage ((message, options, ρ) :: calls) w)
      with (processAll typeErrorMessage calls (processMessage message options ρ w).2).
    destruct (IH (processMessage message options ρ w).2) as [Hcount Hmessages].
    split.
    + rewrite Hcount. simpl length.
      pose proof (processMessage_world message options ρ w) as Hworld.
      destruct (storeMessage_effect message
                  (NANDA.withNanda NANDA.incrementMessageCount w))
        as (_ & _ & _ & _ & Hsame & _).
      rewrite Hworld, Hsame. simpl. lia.
    + rewrite Hmessages, processMessage_messagesOf. simpl map.
      rewrite filter_cons. simpl.
      destruct (decide (message_conversationId message = conversationId));
        now rewrite <- app_assoc.
Qed.

End Pipeline.

(** What holds of every stored conversation along a run: it is filed
    under its own id, its messages carry that id, and its two time stamps
    are earlier readings of the clock, [createdAt] not after
    [updatedAt]. *)
Lemma runs_invariant typeErrorMessage w0 w :
  NANDA.conversations (NANDA.nanda w0) = ∅ ->
  Runs typeErrorMessage w0 w ->
  NANDA.readings (NANDA.clock w) = NANDA.readings (NANDA.clock w0)
  /\ forall id c,
       NANDA.conversations (NANDA.nanda w) !! id = Some c ->
       conversation_id c = id
       /\ Forall (fun m => message_conversationId m = id) (messages c)
       /\ exists i j,
            i <= j /\ j < NANDA.reads (NANDA.clock w)
            /\ createdAt c = NANDA.readings (NANDA.clock w0) i
            /\ updatedAt c = NANDA.readings (NANDA.clock w0) j.
Proof.
  intros Hempty Hruns.
  induction Hruns as [|message options ρ w Hruns [IHclock IH]
                      |conversationId w Hruns [IHclock IH]].
  - split; [reflexivity|]. intros id c. rewrite Hempty, lookup_empty. discriminate.
  - rewrite processMessage_world.
    destruct (storeMessage_effect message
                (NANDA.withNanda NANDA.incrementMessageCount w))
      as (_ & Hstore & Hreadings & Hreads & _).
    cbv zeta in Hstore, Hreadings, Hreads. simpl in Hstore, Hreadings, Hreads.
    split; [now rewrite Hreadings|].
    intros id c. rewrite Hstore, Hreads.
    destruct (decide (message_conversationId message = id)) as [<-|Hne].
    + rewrite lookup_insert_eq. intros [= <-].
      destruct (NANDA.conversations (NANDA.nanda w) !! message_conversationId message)
        as [old|] eqn:Hold.
      * destruct (IH _ _ Hold) as (Hid & Hall & i & j & Hij & Hj & Hi' & Hj').
        simpl. split; [exact Hid|]. split.
        -- apply Forall_app. split; [exact Hall|]. now constructor.
        -- exists i, (NANDA.reads (NANDA.clock w)). rewrite IHclock.
           repeat split; [lia | lia | exact Hi'].
      * simpl. split; [reflexivity|]. split; [now repeat constructor|].
        exists (NANDA.reads (NANDA.clock w)), (S (S (NANDA.reads (NANDA.clock w)))).
        rewrite IHclock. repeat split; lia.
    + rewrite lookup_insert_ne by assumption. intros Hc.
      destruct (IH _ _ Hc) as (Hid & Hall & i & j & Hij & Hj & Hi' & Hj').
      split; [exact Hid|]. split; [exact Hall|]. exists i, j.
      repeat split; try assumption.
      destruct (NANDA.conversations (NANDA.nanda w) !! message_conversationId message);
        lia.
  - split; [exact IHclock|]. intros id c. simpl.
    intros Hc. apply lookup_delete_Some in Hc as [_ Hc]. exact (IH _ _ Hc).
Qed.

(** X16.  Starting from an empty store, whatever calls of [processMessage]
    and [deleteConversation] are made, every conversation that
    [getConversation(id)] returns has [id] as its id, holds only messages
    whose [conversationId] is [id], and, when the clock does not run
    backwards, has [createdAt <= updatedAt]. *)
Theorem stored_conversations_are_well_formed typeErrorMessage w0 w id c :
  NANDA.conversations (NANDA.nanda w0) = ∅ ->
  Runs typeErrorMessage w0 w ->
  NANDA.getConversation id (NANDA.nanda w) = Some c ->
  conversation_id c = id
  /\ Forall (fun m => message_conversationId m = id) (messages c)
  /\ (Monotone (NANDA.clock w0) -> (createdAt c <= updatedAt c)%Z).
Proof.
  intros Hempty Hruns Hc.
  destruct (runs_invariant _ _ _ Hempty Hruns) as [_ Hinv].
  destruct (Hinv _ _ Hc) as (Hid & Hall & i & j & Hij & _ & -> & ->).
  split; [exact Hid|]. split; [exact Hall|]. intros Hmono. now apply Hmono.
Qed.

(** X17.  [deleteConversation(id)] returns whether the conversation
    existed; afterwards [getConversation(id)] finds nothing, every other
    conversation is as before, and the message counter is not lowered. *)
Theorem deleteConversation_removes_one id this :
  exists this',
    NANDA.deleteConversation id this =
      (Normal (bool_decide (is_Some (NANDA.getConversation id this))), this')
    /\ NANDA.getConversation id this' = None
    /\ (forall other, other <> id ->
          NANDA.getConversation other this' = NANDA.getConversation other this)
    /\ NANDA.messageCount this' = NANDA.messageCount this.
Proof.
  eexists. split; [reflexivity|]. unfold NANDA.getConversation. simpl.
  split; [apply lookup_delete_eq|]. split; [|reflexivity].
  intros other Hne. now rewrite lookup_delete_ne.
Qed.

(** X18.  A message that arrives for a deleted conversation starts the
    conversation afresh: it holds that message alone, the earlier ones
    are not brought back, and its [createdAt] is a new reading of the
    clock. *)
Theorem storeMessage_after_delete message w :
  let id := message_conversationId message in
  let deleted := (NANDA.onNanda (NANDA.deleteConversation id) w).2 in
  let w' := (NANDA.storeMessage message deleted).2 in
  NANDA.getConversation id (NANDA.nanda w') =
  Some {| conversation_id := id;
          messages := [message];
          createdAt := NANDA.readings (NANDA.clock w) (NANDA.reads (NANDA.clock w));
          updatedAt := NANDA.readings (NANDA.clock w)
                         (S (S (NANDA.reads (NANDA.clock w)))) |}.
Proof.
  intros id deleted w'.
  destruct (storeMessage_effect message deleted) as (_ & Hstore & _).
  cbv zeta in Hstore. fold id w' in Hstore.
  unfold NANDA.getConversation. rewrite Hstore, lookup_insert_eq.
  unfold deleted at 1. simpl. rewrite lookup_delete_eq. reflexivity.
Qed.

(** ** More on the registry client *)

Lemma axiosPost_Normal exchange response :
  RegistryClient.axiosPost exchange = Normal response <->
  exchange = RegistryClient.Responded response /\ (status response < 500)%Z.
Proof.
  unfold RegistryClient.axiosPost, RegistryClient.validateStatus.
  destruct exchange as [r|code message].
  - destruct (Z.ltb_spec (status r) 500); split.
    + intros [= ->]. now split.
    + now intros [[= ->] _].
    + discriminate.
    + intros [[= ->] ?]. lia.
  - split; [discriminate | now intros [? _]].
Qed.

(** What [axios] rejects with can be written to the log. *)
Lemma axiosPost_Abrupt exchange error :
  RegistryClient.axiosPost exchange = Abrupt error ->
  interpolateThrown error = Normal tt.
Proof.
  unfold RegistryClient.axiosPost.
  destruct exchange as [r|code message];
    [destruct (RegistryClient.validateStatus _)|]; now intros [= <-].
Qed.

(** X19.  [unregister] never throws.  It returns [true] exactly when the
    agent was not registered (no request is made then) or the registry
    answered 200 or 404; the agent then counts as unregistered.  When it
    returns [false] (any other answer, or no answer) the agent still
    counts as registered. *)
Theorem unregister_outcome exchange client :
  exists ok client',
    RegistryClient.unregister exchange client = (Normal ok, client')
    /\ (ok = true <->
        RegistryClient.isRegistered client = false
        \/ exists response,
             exchange = RegistryClient.Responded response
             /\ (status response = 200 \/ status response = 404)%Z)
    /\ RegistryClient.isRegistered client' =
       (if ok then false else RegistryClient.isRegistered client).
Proof.
  unfold RegistryClient.unregister, RegistryClient.axiosDelete,
    tryCatchM, bind, gets, lift, ret, modify.
  destruct client as [[|]]; simpl.
  - destruct (RegistryClient.axiosPost exchange) as [response|error] eqn:Hpost.
    + apply axiosPost_Normal in Hpost as [-> Hlt].
      destruct (Z.eqb_spec (status response) 200) as [H200|Hn200]; simpl.
      * do 2 eexists. split; [reflexivity|]. split; [|reflexivity].
        split; [eauto | reflexivity].
      * destruct (Z.eqb_spec (status response) 404) as [H404|Hn404]; simpl.
        -- do 2 eexists. split; [reflexivity|]. split; [|reflexivity].
           split; [eauto | reflexivity].
        -- do 2 eexists. split; [reflexivity|]. split; [|reflexivity].
           split; [discriminate|].
           intros [?|(r & [= <-] & [?|?])]; [discriminate | lia | lia].
    + rewrite (axiosPost_Abrupt _ _ Hpost). simpl.
      do 2 eexists. split; [reflexivity|]. split; [|reflexivity].
      split; [discriminate|].
      intros [?|(r & -> & Hstatus)]; [discriminate|].
      unfold RegistryClient.axiosPost, RegistryClient.validateStatus in Hpost.
      destruct (Z.ltb_spec (status r) 500); [discriminate | lia].
  - do 2 eexists. split; [reflexivity|]. split; [|reflexivity].
    split; [now left | reflexivity].
Qed.

(** X20.  [heartbeat] and [updateRegistration] never throw and never
    change whether the agent counts as registered; each returns [true]
    exactly when the agent counts as registered and the registry answers
    200, and [false] without a request otherwise. *)
Theorem heartbeat_and_update_only_report exchange client :
  let reports (call : M RegistryClient.t bool) :=
    exists ok,
      call client = (Normal ok, client)
      /\ (ok = true <->
          RegistryClient.isRegistered client = true
          /\ exists response,
               exchange = RegistryClient.Responded response
               /\ status response = 200%Z) in
  reports (RegistryClient.heartbeat exchange)
  /\ reports (RegistryClient.updateRegistration exchange).
Proof.
  assert (Hcases :
    forall f : Z -> bool, (forall z, f z = (z =? 200)%Z) ->
    exists ok,
      (if negb (RegistryClient.isRegistered client) then (Normal false, client)
       else match RegistryClient.axiosPost exchange with
            | Normal response => (Normal (f (status response)), client)
            | Abrupt error =>
                match interpolateThrown error with
                | Normal _ => (Normal false, client)
                | Abrupt failure => (Abrupt failure, client)
                end
            end) = (Normal ok, client)
      /\ (ok = true <->
          RegistryClient.isRegistered client = true
          /\ exists response,
               exchange = RegistryClient.Responded response
               /\ status response = 200%Z)).
  { intros f Hf. destruct (RegistryClient.isRegistered client); simpl.
    - destruct (RegistryClient.axiosPost exchange) as [response|error] eqn:Hpost.
      + apply axiosPost_Normal in Hpost as [-> Hlt]. rewrite Hf.
        eexists. split; [reflexivity|].
        destruct (Z.eqb_spec (status response) 200); split; eauto.
        * discriminate.
        * intros (_ & r & [= <-] & ?). contradiction.
      + rewrite (axiosPost_Abrupt _ _ Hpost).
        eexists. split; [reflexivity|]. split; [discriminate|].
        intros (_ & r & -> & Hstatus).
        unfold RegistryClient.axiosPost, RegistryClient.validateStatus in Hpost.
        destruct (Z.ltb_spec (status r) 500); [discriminate | lia].
    - eexists. split; [reflexivity|]. split; [discriminate | now intros [? _]]. }
  cbv zeta. split.
  - destruct (Hcases (fun z => (z =? 200)%Z) (fun _ => eq_refl)) as (ok & Hrun & Hok).
    exists ok. split; [|exact Hok]. rewrite <- Hrun.
    unfold RegistryClient.heartbeat, tryCatchM, bind, gets, lift, ret.
    destruct (RegistryClient.isRegistered client); simpl; [|reflexivity].
    destruct (RegistryClient.axiosPost exchange) as [response|error]; [reflexivity|].
    unfold bind, lift, ret. now destruct (interpolateThrown error).
  - assert (Hf : forall z, (if (z =? 200)%Z then true else false) = (z =? 200)%Z)
      by (intros z; now destruct (z =? 200)%Z).
    destruct (Hcases (fun z => if (z =? 200)%Z then true else false) Hf)
      as (ok & Hrun & Hok).
    exists ok. split; [|exact Hok]. rewrite <- Hrun.
    unfold RegistryClient.updateRegistration, RegistryClient.axiosPut,
      tryCatchM, bind, gets, lift, ret.
    destruct (RegistryClient.isRegistered client); simpl; [|reflexivity].
    destruct (RegistryClient.axiosPost exchange) as [response|error].
    + now destruct (status response =? 200)%Z.
    + unfold bind, lift, ret. now destruct (interpolateThrown error).
Qed.

Lemma register_accepted response client :
  status response = 200%Z ->
  RegistryClient.register (RegistryClient.Responded response) client
  = (Normal true, {| RegistryClient.isRegistered := true |}).
Proof.
  intros H200.
  unfold RegistryClient.register, tryCatchM, bind, lift, ret, modify,
    RegistryClient.axiosPost, RegistryClient.validateStatus.
  rewrite H200. simpl. rewrite H200. reflexivity.
Qed.

(** X21.  What [register] leaves in [isRegistered]: [true] when it
    returns [true]; [false] when the request got no answer or an answer
    with status 500 or more; and the value from before, with [false]
    returned, when the registry refused with a status below 500 and a body
    that can be written to the log. *)
Theorem register_updates_isRegistered exchange client :
  let ok := (RegistryClient.register exchange client).1 in
  let client' := (RegistryClient.register exchange client).2 in
  (ok = Normal true -> RegistryClient.isRegistered client' = true)
  /\ (forall response,
        exchange = RegistryClient.Responded response ->
        (500 <= status response)%Z ->
        ok = Normal false /\ RegistryClient.isRegistered client' = false)
  /\ (forall code message,
        exchange = RegistryClient.Failed code message ->
        ok = Normal false /\ RegistryClient.isRegistered client' = false)
  /\ (forall response text,
        exchange = RegistryClient.Responded response ->
        (status response < 500)%Z ->
        status response <> 200%Z ->
        coerce (data response) = Some text ->
        ok = Normal false
        /\ RegistryClient.isRegistered client' = RegistryClient.isRegistered client).
Proof.
  cbv zeta.
  unfold RegistryClient.register, tryCatchM, bind, lift, ret, modify,
    RegistryClient.axiosPost, RegistryClient.validateStatus.
  destruct exchange as [r|code message]; simpl.
  - destruct (Z.ltb_spec (status r) 500) as [Hlt|Hge]; simpl.
    + destruct (Z.eqb_spec (status r) 200) as [H200|Hn200]; simpl.
      * split; [reflexivity|]. split; [intros ? [= <-] ?; lia|].
        split; [discriminate|]. intros ? ? [= <-] _ ?. contradiction.
      * unfold RegistryClient.interpolate.
        destruct (coerce (data r)) as [text|] eqn:Hdata; simpl.
        -- split; [discriminate|]. split; [intros ? [= <-] ?; lia|].
           split; [discriminate|]. intros ? ? [= <-] _ _ _. now split.
        -- split; [discriminate|]. split; [intros ? [= <-] ?; lia|].
           split; [discriminate|]. intros ? ? [= <-] _ _ Hsome. congruence.
    + destruct (Z.eqb_spec (status r) 400) as [H400|_]; [lia|]. simpl.
      split; [discriminate|]. split; [now intros ? [= <-] _|].
      split; [discriminate|]. intros ? ? [= <-] ?. lia.
  - destruct (RegistryClient.codeIs code "ECONNREFUSED"
              || RegistryClient.codeIs code "ENOTFOUND"); simpl;
      (split; [discriminate|]); (split; [discriminate|]);
      (split; [now intros ? ? _ | discriminate]).
Qed.

(** ** More on the life cycle *)

(** X22.  [sendMessage] succeeds exactly while the bridge is running: it
    works after [start], and before [start] or after [stop] it throws the
    error "Agent bridge is not running"; it never changes the state of
    the bridge. *)
Theorem sendMessage_needs_running_bridge message this :
  AgentBridge.sendMessage message this =
    (if AgentBridge.isBridgeRunning this then Normal tt
     else Abrupt (ErrorInstance "Agent bridge is not running"), this)
  /\ exists started stopped,
       AgentBridge.start this = (Normal tt, started)
       /\ AgentBridge.sendMessage message started = (Normal tt, started)
       /\ AgentBridge.stop started = (Normal tt, stopped)
       /\ AgentBridge.sendMessage message stopped =
          (Abrupt (ErrorInstance "Agent bridge is not running"), stopped).
Proof.
  split.
  - unfold AgentBridge.sendMessage, AgentBridge.isBridgeRunning, bind, gets.
    now destruct (AgentBridge.isRunning this).
  - do 2 eexists. repeat split; reflexivity.
Qed.

(** X23.  When the API server fails to start, [start] throws that error
    again: the agent is not marked running and the registry is never
    contacted, but the bridge has been started already and stays so. *)
Theorem start_fails_with_the_api_server error exchange this :
  error <> NonError false ->
  exists this',
    NANDA.start (Abrupt error) exchange this = (Abrupt error, this')
    /\ NANDA.isRunning this' = NANDA.isRunning this
    /\ NANDA.registryClient this' = NANDA.registryClient this
    /\ AgentBridge.isRunning (NANDA.agentBridge this') = true
    /\ NANDA.apiServer this' = NANDA.apiServer this.
Proof.
  intros Hconv.
  assert (Hlog : interpolateThrown error = Normal tt)
    by (destruct error as [m|code response m|[]]; [reflexivity.. | congruence]).
  unfold NANDA.start, NANDA.onAgentBridge, NANDA.onApiServer, AgentBridge.start,
    ApiServer.start, tryCatchM, bind, lift, modify, throw.
  simpl. rewrite Hlog.
  eexists. split; [reflexivity|]. simpl. repeat split.
Qed.

(** X24.  A successful [start] marks the bridge, the API server and the
    agent running and keeps the conversations and the message counter;
    the agent counts as registered afterwards if the registry answered
    200. *)
Theorem start_keeps_store_and_counter exchange this :
  exists this',
    NANDA.start (Normal tt) exchange this = (Normal tt, this')
    /\ NANDA.conversations this' = NANDA.conversations this
    /\ NANDA.messageCount this' = NANDA.messageCount this
    /\ AgentBridge.isRunning (NANDA.agentBridge this') = true
    /\ ApiServer.isRunning (NANDA.apiServer this') = true
    /\ NANDA.isAgentRunning this' = true
    /\ (forall response,
          exchange = RegistryClient.Responded response ->
          status response = 200%Z ->
          RegistryClient.isAgentRegistered (NANDA.registryClient this') = true).
Proof.
  unfold NANDA.start, tryCatchM, bind at 1.
  unfold NANDA.onAgentBridge at 1. simpl.
  unfold bind at 1. unfold NANDA.onApiServer at 1. simpl.
  unfold bind at 1. unfold NANDA.onRegistryClient at 1. simpl.
  destruct (register_returns exchange (NANDA.registryClient this))
    as (ok & client' & Hregister & _).
  rewrite Hregister. simpl.
  eexists. split; [reflexivity|]. simpl. repeat split.
  intros response -> H200. rewrite (register_accepted _ _ H200) in Hregister.
  now injection Hregister as _ <-.
Qed.

(** ** Closed instances of the further properties *)

(** [register('shout', echo)] on a fresh registry, then
    [improveWith('shout', 'hello')]. *)
Lemma register_then_improveWith_witness :
  "shout" <> "__proto__"
  /\ echo "hello" None 0 = Normal "hello"
  /\ MessageImprover.improveWith sampleTypeErrorMessage "shout" "hello" None 0
       (MessageImprover.register "shout" echo sampleRegistry) =
     Normal {| originalMessage := "hello";
               improvedMessage := JsString "hello";
               improvementType := CustomImprovement;
               metadata := ImproverMetadata "shout" None |}.
Proof.
  assert (Hname : "shout" <> "__proto__") by discriminate.
  split; [exact Hname|]. split; [reflexivity|].
  exact (register_then_improveWith sampleTypeErrorMessage "shout" echo "hello"
           None 0 sampleRegistry "hello" Hname eq_refl).
Defined.

(** Two registrations under ["shout"] on a fresh registry. *)
Lemma register_last_write_wins_witness :
  "default" <> "shout"
  /\ MessageImprover.register "shout" throwsKaput
       (MessageImprover.register "shout" echo sampleRegistry)
     = MessageImprover.register "shout" throwsKaput sampleRegistry
  /\ MessageImprover.improvers (MessageImprover.register "shout" echo sampleRegistry)
       !! "default"
     = MessageImprover.improvers sampleRegistry !! "default".
Proof.
  assert (Hne : "default" <> "shout") by discriminate.
  destruct (register_last_write_wins "shout" echo throwsKaput sampleRegistry)
    as (Hlast & _ & Hother).
  split; [exact Hne|]. split; [exact Hlast | exact (Hother "default" Hne)].
Defined.

(** [list()] after [register('shout', echo)] on a fresh registry. *)
Lemma list_after_register_witness :
  "shout" <> "__proto__"
  /\ ("shout" ∈ MessageImprover.list
                  (MessageImprover.register "shout" echo sampleRegistry)
      <-> "shout" = "shout" \/ "shout" ∈ MessageImprover.list sampleRegistry).
Proof.
  assert (Hname : "shout" <> "__proto__") by discriminate.
  split; [exact Hname|].
  exact (proj1 (proj2 (list_after_register "shout" echo sampleRegistry "shout")) Hname).
Defined.

(** [setActive('professional')] on a fresh registry, then
    [improve('hi')]. *)
Lemma setActive_then_improve_witness :
  MessageImprover.improvers sampleRegistry !! "professional"
  = Some (MessageImprover.professionalImprover Js.asciiToUpperCase)
  /\ MessageImprover.professionalImprover Js.asciiToUpperCase "hi" None 0
     = Normal "Hello."
  /\ MessageImprover.improve sampleTypeErrorMessage "hi" None 0
       (MessageImprover.setActive "professional" sampleRegistry).2 =
     Normal {| originalMessage := "hi";
               improvedMessage := JsString "Hello.";
               improvementType := CustomImprovement;
               metadata := ImproverMetadata "professional" None |}.
Proof.
  assert (Hreg : MessageImprover.improvers sampleRegistry !! "professional"
                 = Some (MessageImprover.professionalImprover Js.asciiToUpperCase)).
  { unfold sampleRegistry. rewrite new_improvers. now simplify_map_eq. }
  split; [exact Hreg|]. split; [reflexivity|].
  exact (proj2 (setActive_then_improve sampleTypeErrorMessage "professional" _
                  "hi" None 0 sampleRegistry "Hello." Hreg eq_refl)).
Defined.

(** [remove('professional')] on a fresh registry. *)
Lemma remove_then_unknown_witness :
  "professional" <> "default"
  /\ objectPrototypeMember "professional" = None
  /\ MessageImprover.improveWith sampleTypeErrorMessage "professional" "hi" None 0
       (MessageImprover.remove "professional" sampleRegistry).2
     = Normal (MessageImprover.notFound "hi").
Proof.
  assert (Hne : "professional" <> "default") by discriminate.
  split; [exact Hne|]. split; [reflexivity|].
  exact (proj2 (proj2 (proj2
           (remove_then_unknown sampleTypeErrorMessage "professional" "hi" None 0
              sampleRegistry Hne eq_refl)))).
Defined.

(** The answer for a name that is not registered. *)
Lemma improveWith_result_shape_witness :
  MessageImprover.improveWith sampleTypeErrorMessage "ghost" "hi" None 0 sampleRegistry
  = Normal (MessageImprover.notFound "hi")
  /\ originalMessage (MessageImprover.notFound "hi") = "hi".
Proof.
  assert (Hresult :
    MessageImprover.improveWith sampleTypeErrorMessage "ghost" "hi" None 0 sampleRegistry
    = Normal (MessageImprover.notFound "hi")).
  { apply improveWith_unknown; [exact sampleRegistry_ghost | reflexivity]. }
  split; [exact Hresult|].
  exact (proj1 (improveWith_result_shape sampleTypeErrorMessage "ghost" "hi" None 0
                  sampleRegistry _ Hresult)).
Defined.

(** [setActive('creative')], then [remove('creative')]. *)
Lemma remove_active_falls_back_to_default_witness :
  let this := (MessageImprover.setActive "creative" sampleRegistry).2 in
  Reachable sampleRegistry this
  /\ "creative" <> "default"
  /\ MessageImprover.getActive this = "creative"
  /\ MessageImprover.getActive (MessageImprover.remove "creative" this).2 = "default".
Proof.
  cbv zeta.
  assert (Hreach : Reachable sampleRegistry
                     (MessageImprover.setActive "creative" sampleRegistry).2)
    by (apply reach_setActive, reach_initial).
  assert (Hne : "creative" <> "default") by discriminate.
  assert (Hact : MessageImprover.getActive
                   (MessageImprover.setActive "creative" sampleRegistry).2 = "creative").
  { unfold sampleRegistry.
    erewrite setActive_registered; [reflexivity|].
    rewrite new_improvers. now simplify_map_eq. }
  split; [exact Hreach|]. split; [exact Hne|]. split; [exact Hact|].
  exact (proj1 (proj2 (remove_active_falls_back_to_default
                         Js.asciiToUpperCase Js.asciiToLowerCase
                         sampleTypeErrorMessage "creative" "hi" None 0 _
                         Hreach Hne Hact))).
Defined.

(** ["default"] on ["hi there"]. *)
Lemma seed_improvers_end_in_punctuation_witness :
  MessageImprover.defaultImprover Js.asciiToUpperCase
    ∈ [ MessageImprover.defaultImprover Js.asciiToUpperCase;
        MessageImprover.professionalImprover Js.asciiToUpperCase;
        MessageImprover.creativeImprover Js.asciiToUpperCase Js.asciiToLowerCase ]
  /\ exists s,
       MessageImprover.defaultImprover Js.asciiToUpperCase "hi there" None 0 = Normal s
       /\ (Js.trim "hi there" = "" -> s = "")
       /\ (Js.trim "hi there" <> "" -> Js.endsWithPunctuation s = true).
Proof.
  assert (Hin : MessageImprover.defaultImprover Js.asciiToUpperCase
    ∈ [ MessageImprover.defaultImprover Js.asciiToUpperCase;
        MessageImprover.professionalImprover Js.asciiToUpperCase;
        MessageImprover.creativeImprover Js.asciiToUpperCase Js.asciiToLowerCase ])
    by apply list_elem_of_here.
  split; [exact Hin|].
  exact (seed_improvers_end_in_punctuation Js.asciiToUpperCase Js.asciiToLowerCase
           "hi there" None 0 _ Hin).
Defined.

(** ["creative"] on ["hi there"], with the fourth starter drawn. *)
Lemma creative_improver_starter_witness :
  let capitalized :=
    Js.asciiToUpperCase (Js.charAt 0 (Js.trim "hi there"))
    +:+ Js.slice 1 (Js.trim "hi there") in
  let exciting text :=
    Js.includes (Js.asciiToLowerCase text) "amazing"
    || Js.includes (Js.asciiToLowerCase text) "exciting"
    || Js.includes (Js.asciiToLowerCase text) "incredible" in
  let body text :=
    if exciting text then Js.replaceFinalPeriod capitalized else capitalized in
  Js.trim "hi there" <> ""
  /\ String.length capitalized < 100
  /\ Js.includes capitalized ":" = false
  /\ MessageImprover.creativeImprover Js.asciiToUpperCase Js.asciiToLowerCase
       "hi there" None 3 = Normal "Get ready for: Hi there."
  /\ exists s starter,
       MessageImprover.creativeImprover Js.asciiToUpperCase Js.asciiToLowerCase
         "hi there" None 3 = Normal s
       /\ starter ∈ MessageImprover.engagingStarters
       /\ s = starter +:+ body (starter +:+ capitalized)
              +:+ (if Js.endsWithPunctuation
                        (starter +:+ body (starter +:+ capitalized))
                   then "" else ".").
Proof.
  cbv zeta.
  assert (Hne : Js.trim "hi there" <> "") by discriminate.
  assert (Hshort : String.length
                     (Js.asciiToUpperCase (Js.charAt 0 (Js.trim "hi there"))
                      +:+ Js.slice 1 (Js.trim "hi there")) < 100)
    by (vm_compute; lia).
  split; [exact Hne|]. split; [exact Hshort|]. split; [reflexivity|].
  split; [reflexivity|].
  destruct (creative_improver_starter Js.asciiToUpperCase Js.asciiToLowerCase
              "hi there" None 3 Hne) as (s & Hs & Hstarter & _).
  destruct (Hstarter Hshort eq_refl) as (starter & Hin & Hshape).
  exists s, starter. split; [exact Hs|]. split; [exact Hin | exact Hshape].
Defined.

(** [processMessage] on a fresh agent with the seed registry. *)
Lemma processMessage_improves_and_stores_witness :
  let options := {| improveMessage := None; improverName := None |} in
  let message := sampleMessage "m1" "hello" in
  let result :=
    {| originalMessage := "hello";
       improvedMessage := JsString "Hello.";
       improvementType := DefaultImprovement;
       metadata :=
         ImproverMetadata "default"
           (Some {| context_conversationId := "c1";
                    context_messageId := "m1";
                    context_role := user |}) |} in
  NANDA.improvementEnabled options = true
  /\ MessageImprover.improveWith sampleTypeErrorMessage
       (NANDA.resolveImproverName options (NANDA.messageImprover sampleWorld))
       (NANDA.firstContent message)
       (Some {| context_conversationId := message_conversationId message;
                context_messageId := message_id message;
                context_role := message_role message |})
       0 (NANDA.messageImprover sampleWorld) = Normal result
  /\ exists w',
       NANDA.processMessage sampleTypeErrorMessage message options 0 sampleWorld
       = (Normal result, w')
       /\ messagesOf "c1" w' = [message].
Proof.
  cbv zeta. split; [reflexivity|]. split; [reflexivity|].
  destruct (processMessage_improves_and_stores sampleTypeErrorMessage
              (sampleMessage "m1" "hello")
              {| improveMessage := None; improverName := None |} 0 sampleWorld
              _ eq_refl eq_refl) as (w' & Hrun & Hstored & _).
  exists w'. split; [exact Hrun | exact Hstored].
Defined.

(** [processMessage] with [improveMessage: false]. *)
Lemma processMessage_without_improvement_witness :
  let options := {| improveMessage := Some false; improverName := Some "creative" |} in
  improveMessage options = Some false
  /\ exists w',
       NANDA.processMessage sampleTypeErrorMessage (sampleMessage "m1" "hello")
         options 0 sampleWorld =
       (Normal {| originalMessage := "hello";
                  improvedMessage := JsString "hello";
                  improvementType := NoImprovement;
                  metadata := MessageMetadata "m1" "c1" |}, w').
Proof.
  cbv zeta. split; [reflexivity|].
  destruct (processMessage_without_improvement sampleTypeErrorMessage
              (sampleMessage "m1" "hello")
              {| improveMessage := Some false; improverName := Some "creative" |}
              0 sampleWorld eq_refl) as (w' & Hrun & _).
  exists w'. exact Hrun.
Defined.

(** A message with a second content block. *)
Lemma processMessage_reads_first_block_only_witness :
  let m1 := sampleMessage "m1" "hello" in
  let m2 :=
    {| message_id := "m1";
       message_role := user;
       message_content :=
         [ {| content_type := text; content_content := "hello" |};
           {| content_type := file; content_content := "ignored" |} ];
       message_timestamp := 5%Z;
       message_conversationId := "c1" |} in
  let options := {| improveMessage := None; improverName := None |} in
  NANDA.firstContent m1 = NANDA.firstContent m2
  /\ (NANDA.processMessage sampleTypeErrorMessage m1 options 0 sampleWorld).1
     = (NANDA.processMessage sampleTypeErrorMessage m2 options 0 sampleWorld).1.
Proof.
  cbv zeta. split; [reflexivity|].
  exact (proj1 (processMessage_reads_first_block_only sampleTypeErrorMessage
                  (sampleMessage "m1" "hello") _
                  {| improveMessage := None; improverName := None |} 0 sampleWorld
                  eq_refl eq_refl eq_refl eq_refl)).
Defined.

(** The conversation after one call of [processMessage] on a fresh
    agent, with a clock that ticks at every reading. *)
Lemma stored_conversations_are_well_formed_witness :
  let options := {| improveMessage := None; improverName := None |} in
  let w := (NANDA.processMessage sampleTypeErrorMessage (sampleMessage "m1" "hello")
              options 0 sampleWorld).2 in
  let c := {| conversation_id := "c1";
              messages := [sampleMessage "m1" "hello"];
              createdAt := 0%Z;
              updatedAt := 2%Z |} in
  NANDA.conversations (NANDA.nanda sampleWorld) = ∅
  /\ Runs sampleTypeErrorMessage sampleWorld w
  /\ NANDA.getConversation "c1" (NANDA.nanda w) = Some c
  /\ Monotone (NANDA.clock sampleWorld)
  /\ (createdAt c <= updatedAt c)%Z.
Proof.
  cbv zeta.
  assert (Hruns : Runs sampleTypeErrorMessage sampleWorld
            (NANDA.processMessage sampleTypeErrorMessage (sampleMessage "m1" "hello")
               {| improveMessage := None; improverName := None |} 0 sampleWorld).2)
    by (apply runs_processMessage, runs_initial).
  assert (Hc : NANDA.getConversation "c1"
            (NANDA.nanda
               (NANDA.processMessage sampleTypeErrorMessage (sampleMessage "m1" "hello")
                  {| improveMessage := None; improverName := None |} 0 sampleWorld).2)
          = Some {| conversation_id := "c1";
                    messages := [sampleMessage "m1" "hello"];
                    createdAt := 0%Z;
                    updatedAt := 2%Z |})
    by (vm_compute; reflexivity).
  split; [reflexivity|]. split; [exact Hruns|]. split; [exact Hc|].
  split; [exact tickingClock_monotone|].
  exact (proj2 (proj2 (stored_conversations_are_well_formed sampleTypeErrorMessage
                         sampleWorld _ "c1" _ eq_refl Hruns Hc))
           tickingClock_monotone).
Defined.

(** [deleteConversation('c1')] on a fresh agent. *)
Lemma deleteConversation_removes_one_witness :
  "c2" <> "c1"
  /\ exists this',
       NANDA.deleteConversation "c1" NANDA.new = (Normal false, this')
       /\ NANDA.getConversation "c2" this' = NANDA.getConversation "c2" NANDA.new.
Proof.
  assert (Hne : "c2" <> "c1") by discriminate.
  split; [exact Hne|].
  destruct (deleteConversation_removes_one "c1" NANDA.new)
    as (this' & Hrun & _ & Hother & _).
  exists this'. split; [exact Hrun | exact (Hother "c2" Hne)].
Defined.

(** [register] answered with status 409 for an agent that is
    registered. *)
Lemma register_updates_isRegistered_witness :
  let response := {| status := 409; data := {| coerce := Some "conflict" |} |} in
  let client := {| RegistryClient.isRegistered := true |} in
  (status response < 500)%Z
  /\ status response <> 200%Z
  /\ coerce (data response) = Some "conflict"
  /\ (RegistryClient.register (RegistryClient.Responded response) client).1
     = Normal false
  /\ RegistryClient.isRegistered
       (RegistryClient.register (RegistryClient.Responded response) client).2 = true.
Proof.
  cbv zeta.
  assert (Hlt : (409 < 500)%Z) by lia.
  assert (Hne : 409%Z <> 200%Z) by lia.
  split; [exact Hlt|]. split; [exact Hne|]. split; [reflexivity|].
  exact (proj2 (proj2 (proj2
           (register_updates_isRegistered
              (RegistryClient.Responded
                 {| status := 409; data := {| coerce := Some "conflict" |} |})
              {| RegistryClient.isRegistered := true |})))
           _ "conflict" eq_refl Hlt Hne eq_refl).
Defined.

(** [start] when the port of the API server is taken. *)
Lemma start_fails_with_the_api_server_witness :
  let exchange := RegistryClient.Failed (Some "ECONNREFUSED") "connect" in
  ErrorInstance "EADDRINUSE" <> NonError false
  /\ exists this',
       NANDA.start (Abrupt (ErrorInstance "EADDRINUSE")) exchange NANDA.new
       = (Abrupt (ErrorInstance "EADDRINUSE"), this')
       /\ NANDA.isRunning this' = false.
Proof.
  cbv zeta.
  assert (Hconv : ErrorInstance "EADDRINUSE" <> NonError false) by discriminate.
  split; [exact Hconv|].
  destruct (start_fails_with_the_api_server (ErrorInstance "EADDRINUSE")
              (RegistryClient.Failed (Some "ECONNREFUSED") "connect") NANDA.new Hconv)
    as (this' & Hrun & Hrunning & _).
  exists this'. split; [exact Hrun | exact Hrunning].
Defined.

(** [start] when the registry answers 200. *)
Lemma start_keeps_store_and_counter_witness :
  let response := {| status := 200; data := {| coerce := Some "ok" |} |} in
  status response = 200%Z
  /\ exists this',
       NANDA.start (Normal tt) (RegistryClient.Responded response) NANDA.new
       = (Normal tt, this')
       /\ RegistryClient.isAgentRegistered (NANDA.registryClient this') = true.
Proof.
  cbv zeta. split; [reflexivity|].
  destruct (start_keeps_store_and_counter
              (RegistryClient.Responded
                 {| status := 200; data := {| coerce := Some "ok" |} |}) NANDA.new)
    as (this' & Hrun & _ & _ & _ & _ & _ & Hregistered).
  exists this'. split; [exact Hrun | exact (Hregistered _ eq_refl eq_refl)].
Defined.
